(** * care-quality-suite: the query gateway of [api/main.py]

    The FastAPI handlers of [api/main.py] are embedded as functions in a
    small state-and-exception monad over a model of the storage engine.
    The SQL statements the handlers send are kept as syntax trees whose
    rendering is checked, character for character, against the string
    literals of the source; their meaning is given over the relations of
    the store.  The store is PostgreSQL, which the connection string and
    the [::float] casts of the statements name: that fixes which statements
    it refuses. *)

From Stdlib Require Import ZArith String Ascii List Bool Lia Sorting.Sorted.
From stdpp Require Import base tactics option list strings gmap sorting pretty.

Local Open Scope Z_scope.

(** ** Values exchanged with the storage engine *)

(** A value of a result row as the database driver hands it to Python.
    Decimal numbers carry two places and are kept exactly, in hundredths;
    the binary representation of Python floats is not modelled.  Dates are
    kept in their ISO text. *)
Inductive value :=
  | VNone
  | VInt (z : Z)
  | VDec (hundredths : Z)
  | VStr (s : string)
  | VDate (iso : string).

#[global] Instance value_eq_dec : EqDecision value.
Proof. solve_decision. Defined.

(** Python truthiness, and [a or b]. *)
Definition truthy (v : value) : bool :=
  match v with
  | VNone => false
  | VInt z => negb (z =? 0)
  | VDec h => negb (h =? 0)
  | VStr s => negb (String.eqb s "")
  | VDate _ => true
  end.

Definition py_or (a b : value) : value := if truthy a then a else b.

(** [str(v)].  Only [patient_id] goes through it in the source. *)
Definition py_str (v : value) : string :=
  match v with
  | VNone => "None"
  | VInt z => pretty z
  | VDec h =>
      (if h <? 0 then "-" else "") +:+ pretty (Z.abs h / 100) +:+ "." +:+
      pretty (Z.abs h mod 100 / 10) +:+ pretty (Z.abs h mod 10)
  | VStr s => s
  | VDate d => d
  end.

(** ** The measure relations *)

(** A stored row of a measure relation: the seven common columns, and the
    measure-specific ones by name.  The common columns are taken to be
    declared [NOT NULL] with the types the model classes of the source give
    them; a measure-specific column can hold any value, NULL included. *)
Record tuple := {
  patient_id : string;
  mrn : string;
  full_name : string;
  age_years : Z;
  denominator : Z;
  numerator : Z;
  measurement_date : string;
  extras : list (string * value)
}.

Fixpoint assoc {A} (k : string) (l : list (string * A)) : option A :=
  match l with
  | [] => None
  | (k', v) :: l => if String.eqb k k' then Some v else assoc k l
  end.

(** The value of a column in a row; [None] when the relation has no such
    column. *)
Definition column (c : string) (t : tuple) : option value :=
  if String.eqb c "patient_id" then Some (VStr (patient_id t))
  else if String.eqb c "mrn" then Some (VStr (mrn t))
  else if String.eqb c "full_name" then Some (VStr (full_name t))
  else if String.eqb c "age_years" then Some (VInt (age_years t))
  else if String.eqb c "denominator" then Some (VInt (denominator t))
  else if String.eqb c "numerator" then Some (VInt (numerator t))
  else if String.eqb c "measurement_date" then Some (VDate (measurement_date t))
  else assoc c (extras t).

(** ** The SQL fragment of the gateway *)

Inductive select_item :=
  | Lit (s alias : string)              (* 's' as alias *)
  | Col (c : string)                    (* c *)
  | Sum (c alias : string)              (* SUM(c) as alias *)
  | Rate (num den alias : string)       (* CASE WHEN SUM(den) > 0 ... END as alias *)
  | CurrentDate (alias : string).       (* CURRENT_DATE as alias *)

Record select := {
  items : list select_item;
  from : string;
  where_ : option (string * string);    (* WHERE column = :parameter *)
  order_by : option string              (* ORDER BY column *)
}.

Definition nl : string := String "010"%char "".
Definition indent (n : nat) : string := String.concat "" (replicate n " ").

Definition render_item (it : select_item) : string :=
  match it with
  | Lit s alias => "'" +:+ s +:+ "' as " +:+ alias
  | Col c => c
  | Sum c alias => "SUM(" +:+ c +:+ ") as " +:+ alias
  | Rate num den alias =>
      "CASE " +:+ nl +:+
      indent 16 +:+ "WHEN SUM(" +:+ den +:+ ") > 0 " +:+ nl +:+
      indent 16 +:+ "THEN ROUND((SUM(" +:+ num +:+ ")::float / SUM(" +:+ den
        +:+ ")) * 100, 2)" +:+ nl +:+
      indent 16 +:+ "ELSE 0 " +:+ nl +:+
      indent 12 +:+ "END as " +:+ alias
  | CurrentDate alias => "CURRENT_DATE as " +:+ alias
  end.

(** The text of a statement, laid out as the triple-quoted literals of the
    source are. *)
Definition render (q : select) : string :=
  nl +:+ indent 8 +:+ "SELECT " +:+ nl +:+
  String.concat ("," +:+ nl) (map (λ it, indent 12 +:+ render_item it) (items q)) +:+ nl +:+
  indent 8 +:+ "FROM " +:+ from q +:+ nl +:+
  match where_ q with
  | Some (c, p) => indent 8 +:+ "WHERE " +:+ c +:+ " = :" +:+ p +:+ nl
  | None => ""
  end +:+
  match order_by q with
  | Some c => indent 8 +:+ "ORDER BY " +:+ c +:+ nl
  | None => ""
  end +:+
  indent 8.

(** ** The statements of [api/main.py]

    First the string literals of the source, verbatim (the f-strings of
    [get_measure_details] as the text before and after [{table_name}]);
    then the statements as syntax.  That each statement renders to its
    literal is proved below ([render_measures_a1c] and the lemmas after
    it). *)

(** [get_quality_measures], first [query]. *)
Definition text_measures_a1c : string :=
"
        SELECT 
            'HEDIS-DM-A1C' as measure_id,
            'Diabetes Care - Hemoglobin A1c' as measure_name,
            SUM(denominator) as denominator,
            SUM(numerator) as numerator,
            CASE 
                WHEN SUM(denominator) > 0 
                THEN ROUND((SUM(numerator)::float / SUM(denominator)) * 100, 2)
                ELSE 0 
            END as rate,
            CURRENT_DATE as measurement_date
        FROM quality_measures.hedis_diabetes_care_hemoglobin_a1c
        ".

(** [get_quality_measures], second [query]. *)
Definition text_measures_bcs : string :=
"
        SELECT 
            'HEDIS-BCS' as measure_id,
            'Breast Cancer Screening' as measure_name,
            SUM(denominator) as denominator,
            SUM(numerator) as numerator,
            CASE 
                WHEN SUM(denominator) > 0 
                THEN ROUND((SUM(numerator)::float / SUM(denominator)) * 100, 2)
                ELSE 0 
            END as rate,
            CURRENT_DATE as measurement_date
        FROM quality_measures.hedis_breast_cancer_screening
        ".

(** [get_quality_measures], third [query]. *)
Definition text_measures_psi : string :=
"
        SELECT 
            'HVBP-PSI-04' as measure_id,
            'Death among surgical inpatients' as measure_name,
            SUM(denominator) as denominator,
            SUM(numerator) as numerator,
            CASE 
                WHEN SUM(denominator) > 0 
                THEN ROUND((SUM(numerator)::float / SUM(denominator)) * 100, 2)
                ELSE 0 
            END as rate,
            CURRENT_DATE as measurement_date
        FROM quality_measures.hvbp_patient_safety_indicator
        ".

(** [summary_query] up to [{table_name}]. *)
Definition text_summary_prefix : string :=
"
        SELECT 
            SUM(denominator) as total_denominator,
            SUM(numerator) as total_numerator,
            CASE 
                WHEN SUM(denominator) > 0 
                THEN ROUND((SUM(numerator)::float / SUM(denominator)) * 100, 2)
                ELSE 0 
            END as overall_rate
        FROM ".

(** [summary_query] after [{table_name}]. *)
Definition text_summary_suffix : string :=
"
        ".

(** [details_query] up to [{table_name}]. *)
Definition text_details_prefix : string :=
"
        SELECT 
            patient_id,
            mrn,
            full_name,
            age_years,
            denominator,
            numerator,
            measurement_date
        FROM ".

(** [details_query] after [{table_name}]. *)
Definition text_details_suffix : string :=
"
        ORDER BY full_name
        ".

(** [get_patient_measures], first [query]. *)
Definition text_patient_a1c : string :=
"
        SELECT 
            'HEDIS-DM-A1C' as measure_id,
            'Diabetes Care - Hemoglobin A1c' as measure_name,
            denominator,
            numerator,
            most_recent_a1c,
            most_recent_a1c_date
        FROM quality_measures.hedis_diabetes_care_hemoglobin_a1c
        WHERE patient_id = :patient_id
        ".

(** [get_patient_measures], second [query]. *)
Definition text_patient_bcs : string :=
"
        SELECT 
            'HEDIS-BCS' as measure_id,
            'Breast Cancer Screening' as measure_name,
            denominator,
            numerator,
            last_screening_date,
            screening_count
        FROM quality_measures.hedis_breast_cancer_screening
        WHERE patient_id = :patient_id
        ".

(** The three blocks of [get_quality_measures] differ in the two literals
    and the relation only. *)
Definition measures_query (measure_id measure_name relation : string) : select :=
  {| items := [Lit measure_id "measure_id"; Lit measure_name "measure_name";
               Sum "denominator" "denominator"; Sum "numerator" "numerator";
               Rate "numerator" "denominator" "rate";
               CurrentDate "measurement_date"];
     from := relation; where_ := None; order_by := None |}.

Definition summary_query (table_name : string) : select :=
  {| items := [Sum "denominator" "total_denominator"; Sum "numerator" "total_numerator";
               Rate "numerator" "denominator" "overall_rate"];
     from := table_name; where_ := None; order_by := None |}.

Definition details_query (table_name : string) : select :=
  {| items := [Col "patient_id"; Col "mrn"; Col "full_name"; Col "age_years";
               Col "denominator"; Col "numerator"; Col "measurement_date"];
     from := table_name; where_ := None; order_by := Some "full_name" |}.

Definition patient_query (measure_id measure_name relation extra1 extra2 : string) : select :=
  {| items := [Lit measure_id "measure_id"; Lit measure_name "measure_name";
               Col "denominator"; Col "numerator"; Col extra1; Col extra2];
     from := relation; where_ := Some ("patient_id", "patient_id"); order_by := None |}.

(** The measure catalog: identifier, backing relation, display name, in
    the order of the source. *)
Definition a1c_id : string := "HEDIS-DM-A1C".
Definition a1c_name : string := "Diabetes Care - Hemoglobin A1c".
Definition a1c_relation : string := "quality_measures.hedis_diabetes_care_hemoglobin_a1c".
Definition bcs_id : string := "HEDIS-BCS".
Definition bcs_name : string := "Breast Cancer Screening".
Definition bcs_relation : string := "quality_measures.hedis_breast_cancer_screening".
Definition psi_id : string := "HVBP-PSI-04".
Definition psi_name : string := "Death among surgical inpatients".
Definition psi_relation : string := "quality_measures.hvbp_patient_safety_indicator".

Definition a1c_entry : string * (string * string) := (a1c_id, (a1c_relation, a1c_name)).
Definition bcs_entry : string * (string * string) := (bcs_id, (bcs_relation, bcs_name)).
Definition psi_entry : string * (string * string) := (psi_id, (psi_relation, psi_name)).

Definition catalog : list (string * (string * string)) :=
  [a1c_entry; bcs_entry; psi_entry].

Definition catalog_ids : list string := map fst catalog.
Definition catalog_relations : list string := map (λ e, fst (snd e)) catalog.

Definition query_measures_a1c : select := measures_query a1c_id a1c_name a1c_relation.
Definition query_measures_bcs : select := measures_query bcs_id bcs_name bcs_relation.
Definition query_measures_psi : select := measures_query psi_id psi_name psi_relation.
Definition query_patient_a1c : select :=
  patient_query a1c_id a1c_name a1c_relation "most_recent_a1c" "most_recent_a1c_date".
Definition query_patient_bcs : select :=
  patient_query bcs_id bcs_name bcs_relation "last_screening_date" "screening_count".

(** A statement handed to [connection.execute(text(...))]: one of the
    [SELECT ... FROM] statements above, or the probe of [health_check]. *)
Inductive sql :=
  | SelectOne
  | Select (q : select).

Definition render_sql (s : sql) : string :=
  match s with
  | SelectOne => "SELECT 1"
  | Select q => render q
  end.

Definition relation_of (s : sql) : option string :=
  match s with
  | SelectOne => None
  | Select q => Some (from q)
  end.

(** ** Meaning of the statements over a store *)

Definition sum_list (l : list Z) : Z := foldr Z.add 0 l.

(** [SUM] over the values of a column: NULL inputs are skipped, no input
    gives NULL, an input that is not a number is a type error. *)
Definition sum_input (v : value) : option (option Z) :=
  match v with
  | VInt z => Some (Some z)
  | VNone => Some None
  | _ => None
  end.

Definition sql_sum (vs : list value) : option value :=
  zs ← mapM sum_input vs;
  match omap id zs with
  | [] => Some VNone
  | present => Some (VInt (sum_list present))
  end.

Definition sum_column (c : string) (rows : list tuple) : option value :=
  mapM (column c) rows ≫= sql_sum.

(** PostgreSQL resolves every function call of a statement before it reads
    a row.  It has [round(numeric, integer)] and [round(double precision)]
    but no [round(double precision, integer)]: the [ROUND] of the [Rate]
    item, whose first argument is a quotient cast with [::float], does not
    resolve, and a statement that carries the item is refused whatever the
    relation holds. *)
Definition resolves (it : select_item) : bool :=
  match it with
  | Rate _ _ _ => false
  | _ => true
  end.

(** A text value is accepted as a bound parameter unless it holds the NUL
    character, which neither the driver nor the server takes. *)
Fixpoint nul_free (s : string) : bool :=
  match s with
  | EmptyString => true
  | String c s => negb (Ascii.eqb c "000") && nul_free s
  end.

Definition is_aggregate (it : select_item) : bool :=
  match it with
  | Sum _ _ | Rate _ _ _ => true
  | _ => false
  end.

(** An output column of the single row of an aggregate statement. *)
Definition eval_aggregate (today : string) (rows : list tuple) (it : select_item)
    : option value :=
  match it with
  | Lit s _ => Some (VStr s)
  | CurrentDate _ => Some (VDate today)
  | Sum c _ => sum_column c rows
  | Rate _ _ _ => None
  | Col _ => None
  end.

(** An output column of the row projected from [t]. *)
Definition eval_scalar (today : string) (t : tuple) (it : select_item) : option value :=
  match it with
  | Lit s _ => Some (VStr s)
  | CurrentDate _ => Some (VDate today)
  | Col c => column c t
  | Sum _ _ | Rate _ _ _ => None
  end.

(** The columns a statement names; the engine refuses the statement unless
    the relation has them all, whatever rows the statement selects. *)
Definition item_columns (it : select_item) : list string :=
  match it with
  | Col c | Sum c _ => [c]
  | Rate num den _ => [num; den]
  | Lit _ _ | CurrentDate _ => []
  end.

Definition named_columns (q : select) : list string :=
  concat (map item_columns (items q)) ++
  match where_ q with Some (c, _) => [c] | None => [] end ++
  match order_by q with Some c => [c] | None => [] end.

Definition has_columns (cs : list string) (rows : list tuple) : bool :=
  forallb (λ t, forallb (λ c, bool_decide (is_Some (column c t))) cs) rows.

(** A collation: the order [ORDER BY] uses on text.  It is the engine's
    (the locale default), so only its totality is known. *)
Record collation := {
  collate :> string → string → bool;
  collate_total : ∀ s t, collate s t = true ∨ collate t s = true
}.

(** Order of [ORDER BY ... ASC] on values: NULLs last, text by the
    collation, numbers by size; values of different types (which a typed
    column never mixes) by type. *)
Definition type_rank (v : value) : Z :=
  match v with
  | VInt _ => 0 | VDec _ => 1 | VStr _ => 2 | VDate _ => 3 | VNone => 4
  end.

Definition value_le (loc : collation) (a b : value) : bool :=
  match a, b with
  | VInt x, VInt y => x <=? y
  | VDec x, VDec y => x <=? y
  | VStr s, VStr t => loc s t
  | VDate s, VDate t => String.leb s t
  | _, _ => type_rank a <=? type_rank b
  end.

Definition key_le (loc : collation) (c : string) (t1 t2 : tuple) : Prop :=
  match column c t1, column c t2 with
  | Some a, Some b => value_le loc a b
  | _, _ => True
  end.

#[global] Instance key_le_dec loc c : RelDecision (key_le loc c).
Proof. intros t1 t2. unfold key_le. destruct (column c t1), (column c t2); apply _. Defined.

(** The rows a [SELECT] of the gateway returns, [None] when the store
    refuses it: an item does not resolve, the relation or a column it names
    is missing, a parameter is not bound, or an aggregate meets a value that
    is not a number.  [ORDER BY] sorts by the collation of the store. *)
Definition run_select (db : gmap string (list tuple)) (loc : collation) (today : string)
    (q : select) (params : list (string * string)) : option (list (list value)) :=
  guard (forallb resolves (items q));;
  rows ← db !! from q;
  guard (has_columns (named_columns q) rows);;
  rows ← match where_ q with
         | Some (c, p) =>
             v ← assoc p params;
             Some (filter (λ t, column c t = Some (VStr v)) rows)
         | None => Some rows
         end;
  let rows := match order_by q with
              | Some c => merge_sort (key_le loc c) rows
              | None => rows
              end in
  if existsb is_aggregate (items q)
  then row ← mapM (eval_aggregate today rows) (items q); Some [row]
  else mapM (λ t, mapM (eval_scalar today t) (items q)) rows.

Arguments run_select : simpl never.

(** A statement with its bound parameters.  The parameters are checked
    first: one that holds NUL stops the statement before the store reads
    it. *)
Definition run_sql (db : gmap string (list tuple)) (loc : collation) (today : string)
    (s : sql) (params : list (string * string)) : option (list (list value)) :=
  guard (forallb (λ p, nul_free (snd p)) params);;
  match s with
  | SelectOne => Some [[VInt 1]]
  | Select q => run_select db loc today q params
  end.

(** ** The world of a request *)

(** What a handler can reach outside itself: the store behind [engine]
    (its relations, its collation, its clock, and whether each successive
    [engine.connect()] finds it reachable, [true] standing for an outage),
    the statements executed so far, and the lines written by [logger]. *)
Record world := {
  relations : gmap string (list tuple);
  locale : collation;
  today : string;
  outages : list bool;
  issued : list (sql * list (string * string));
  logged : list string
}.

Definition set_outages (o : list bool) (w : world) : world :=
  {| relations := relations w; locale := locale w; today := today w;
     outages := o; issued := issued w; logged := logged w |}.

Definition add_issued (s : sql * list (string * string)) (w : world) : world :=
  {| relations := relations w; locale := locale w; today := today w;
     outages := outages w; issued := issued w ++ [s]; logged := logged w |}.

Definition add_logged (line : string) (w : world) : world :=
  {| relations := relations w; locale := locale w; today := today w;
     outages := outages w; issued := issued w; logged := logged w ++ [line] |}.

(** ** Exceptions and the handler monad *)

Inductive exn :=
  | HTTPException (status_code : Z) (detail : string)
  | Exception (message : string).

Definition exn_str (e : exn) : string :=
  match e with
  | HTTPException _ detail => detail
  | Exception message => message
  end.

(** A computation in a world that returns or raises. *)
Definition M (A : Type) : Type := world → (exn + A) * world.

#[global] Instance M_ret : MRet M := λ A a w, (inr a, w).
#[global] Instance M_bind : MBind M := λ A B f m w,
  match m w with
  | (inr a, w') => f a w'
  | (inl e, w') => (inl e, w')
  end.

Definition raise {A} (e : exn) : M A := λ w, (inl e, w).

(** [try: body except Exception as e: handler(e)]; every exception of the
    model is an [Exception]. *)
Definition try_except {A} (body : M A) (handler : exn → M A) : M A := λ w,
  match body w with
  | (inr a, w') => (inr a, w')
  | (inl e, w') => handler e w'
  end.

(** A Python expression that may raise: [row[i]] out of range, a model
    class refusing a field. *)
Definition eval {A} (o : option A) (error : string) : M A :=
  match o with
  | Some a => mret a
  | None => raise (Exception error)
  end.

Definition logger_info (line : string) : M unit := λ w, (inr (), add_logged line w).
Definition logger_error (line : string) : M unit := λ w, (inr (), add_logged line w).

(** [with engine.connect() as connection]: consumes one entry of the
    outage schedule; past its end the store is reachable. *)
Definition connect : M unit := λ w,
  match outages w with
  | true :: rest => (inl (Exception "OperationalError"), set_outages rest w)
  | false :: rest => (inr (), set_outages rest w)
  | [] => (inr (), w)
  end.

(** [connection.execute(text(query), params)].  The call is recorded
    whether or not it succeeds; a refusal, by the driver or by the store, is
    raised as an exception, whose message stands for the text of the engine,
    which is not modelled. *)
Definition execute (s : sql) (params : list (string * string)) : M (list (list value)) := λ w,
  let w' := add_issued (s, params) w in
  match run_sql (relations w) (locale w) (today w) s params with
  | Some rows => (inr rows, w')
  | None => (inl (Exception "ProgrammingError"), w')
  end.

Definition fetchone (rows : list (list value)) : option (list value) := head rows.
Definition fetchall (rows : list (list value)) : list (list value) := rows.

(** ** The response of the framework *)

Inductive response (A : Type) :=
  | OK (body : A)
  | Error (status : Z) (detail : string).
Arguments OK {A} body.
Arguments Error {A} status detail.

Definition status_code {A} (r : response A) : Z :=
  match r with
  | OK _ => 200
  | Error status _ => status
  end.

(** FastAPI around a handler: a returned value is a 200, an
    [HTTPException] is its status and detail, anything else a bare 500. *)
Definition serve {A} (handler : M A) (w : world) : response A * world :=
  match handler w with
  | (inr body, w') => (OK body, w')
  | (inl (HTTPException status detail), w') => (Error status detail, w')
  | (inl (Exception _), w') => (Error 500 "Internal Server Error", w')
  end.

(** ** The model classes *)

(** A model class checks each field against its annotation.  A value of
    the annotated type passes ([float] also takes an integer); the
    conversions pydantic tries on other values are not modelled, such a
    value is refused.  The engine yields none at these positions. *)
Definition as_str (v : value) : option string :=
  match v with VStr s => Some s | _ => None end.
Definition as_int (v : value) : option Z :=
  match v with VInt z => Some z | _ => None end.
Definition as_float (v : value) : option Z :=
  match v with VInt z => Some (100 * z) | VDec h => Some h | _ => None end.
Definition as_date (v : value) : option string :=
  match v with VDate d => Some d | _ => None end.

Module QualityMeasure.
Record t := {
  measure_id : string;
  measure_name : string;
  denominator : Z;
  numerator : Z;
  rate : Z;                       (* in hundredths *)
  measurement_date : string
}.
End QualityMeasure.

Module PatientMeasure.
Record t := {
  patient_id : string;
  mrn : string;
  full_name : string;
  age_years : Z;
  denominator : Z;
  numerator : Z;
  measurement_date : string
}.
End PatientMeasure.

Module MeasureSummary.
Record t := {
  measure_id : string;
  measure_name : string;
  total_denominator : Z;
  total_numerator : Z;
  overall_rate : Z;               (* in hundredths *)
  patient_details : list PatientMeasure.t
}.
End MeasureSummary.

(** The dictionaries built by [get_patient_measures], [refresh_measures],
    [health_check] and [root], as records of their keys. *)
Module MeasureEntry.
Record t := {
  measure_id : value;
  measure_name : value;
  denominator : value;
  numerator : value;
  additional_info : list (string * value)
}.
End MeasureEntry.

Module PatientMeasures.
Record t := {
  patient_id : string;
  measures : list MeasureEntry.t
}.
End PatientMeasures.

Module Refresh.
Record t := { message : string; status : string }.
End Refresh.

Module Health.
Record t := { status : string; database : string }.
End Health.

Module Root.
Record t := { message : string; version : string }.
End Root.

(** ** The handlers *)

Definition root : M Root.t :=
  mret {| Root.message := "Value-Based Care Quality Suite API"; Root.version := "1.0.0" |}.

Definition health_check : M Health.t :=
  try_except
    (connect;;
     result ← execute SelectOne [];
     mret {| Health.status := "healthy"; Health.database := "connected" |})
    (λ e,
     logger_error ("Health check failed: " +:+ exn_str e);;
     raise (HTTPException 503 "Database connection failed")).

(** [if row:] on the result of [fetchone()]: [None] and the empty row are
    false. *)
Definition row_truthy (row : option (list value)) : bool :=
  match row with
  | Some (_ :: _) => true
  | _ => false
  end.

(** [QualityMeasure(measure_id=row[0], measure_name=row[1],
    denominator=row[2] or 0, numerator=row[3] or 0, rate=row[4] or 0.0,
    measurement_date=row[5])]. *)
Definition quality_measure_of_row (row : list value) : option QualityMeasure.t :=
  r0 ← row !! 0%nat; r1 ← row !! 1%nat; r2 ← row !! 2%nat;
  r3 ← row !! 3%nat; r4 ← row !! 4%nat; r5 ← row !! 5%nat;
  measure_id ← as_str r0;
  measure_name ← as_str r1;
  denominator ← as_int (py_or r2 (VInt 0));
  numerator ← as_int (py_or r3 (VInt 0));
  rate ← as_float (py_or r4 (VDec 0));
  measurement_date ← as_date r5;
  Some {| QualityMeasure.measure_id := measure_id;
          QualityMeasure.measure_name := measure_name;
          QualityMeasure.denominator := denominator;
          QualityMeasure.numerator := numerator;
          QualityMeasure.rate := rate;
          QualityMeasure.measurement_date := measurement_date |}.

(** One [try] block of [get_quality_measures]; the three blocks of the
    source differ in the statement and in the logged prefix. *)
Definition measures_block (query : select) (context : string)
    (measures : list QualityMeasure.t) : M (list QualityMeasure.t) :=
  try_except
    (connect;;
     result ← execute (Select query) [];
     let row := fetchone result in
     if row_truthy row then
       m ← eval (row ≫= quality_measure_of_row) "ValidationError";
       mret (measures ++ [m])
     else mret measures)
    (λ e, logger_error (context +:+ exn_str e);; mret measures).

Definition get_quality_measures : M (list QualityMeasure.t) :=
  measures ← measures_block query_measures_a1c "Error getting diabetes A1c measure: " [];
  measures ← measures_block query_measures_bcs
               "Error getting breast cancer screening measure: " measures;
  measures ← measures_block query_measures_psi "Error getting PSI measure: " measures;
  mret measures.

(** [PatientMeasure(patient_id=str(row[0]), mrn=row[1], full_name=row[2],
    age_years=row[3], denominator=row[4], numerator=row[5],
    measurement_date=row[6])]. *)
Definition patient_measure_of_row (row : list value) : option PatientMeasure.t :=
  r0 ← row !! 0%nat; r1 ← row !! 1%nat; r2 ← row !! 2%nat; r3 ← row !! 3%nat;
  r4 ← row !! 4%nat; r5 ← row !! 5%nat; r6 ← row !! 6%nat;
  mrn ← as_str r1;
  full_name ← as_str r2;
  age_years ← as_int r3;
  denominator ← as_int r4;
  numerator ← as_int r5;
  measurement_date ← as_date r6;
  Some {| PatientMeasure.patient_id := py_str r0;
          PatientMeasure.mrn := mrn;
          PatientMeasure.full_name := full_name;
          PatientMeasure.age_years := age_years;
          PatientMeasure.denominator := denominator;
          PatientMeasure.numerator := numerator;
          PatientMeasure.measurement_date := measurement_date |}.

(** [MeasureSummary(measure_id=measure_id, measure_name=measure_name,
    total_denominator=summary_row[0] or 0, total_numerator=summary_row[1] or 0,
    overall_rate=summary_row[2] or 0.0, patient_details=patient_details)];
    subscripting [None] raises. *)
Definition measure_summary_of_row (measure_id measure_name : string)
    (summary_row : option (list value)) (patient_details : list PatientMeasure.t)
    : option MeasureSummary.t :=
  row ← summary_row;
  r0 ← row !! 0%nat; r1 ← row !! 1%nat; r2 ← row !! 2%nat;
  total_denominator ← as_int (py_or r0 (VInt 0));
  total_numerator ← as_int (py_or r1 (VInt 0));
  overall_rate ← as_float (py_or r2 (VDec 0));
  Some {| MeasureSummary.measure_id := measure_id;
          MeasureSummary.measure_name := measure_name;
          MeasureSummary.total_denominator := total_denominator;
          MeasureSummary.total_numerator := total_numerator;
          MeasureSummary.overall_rate := overall_rate;
          MeasureSummary.patient_details := patient_details |}.

(** The [if]/[elif] chain of [get_measure_details]. *)
Definition resolve_measure (measure_id : string) : M (string * string) :=
  if String.eqb measure_id "HEDIS-DM-A1C" then
    mret ("quality_measures.hedis_diabetes_care_hemoglobin_a1c",
          "Diabetes Care - Hemoglobin A1c")
  else if String.eqb measure_id "HEDIS-BCS" then
    mret ("quality_measures.hedis_breast_cancer_screening", "Breast Cancer Screening")
  else if String.eqb measure_id "HVBP-PSI-04" then
    mret ("quality_measures.hvbp_patient_safety_indicator",
          "Death among surgical inpatients")
  else raise (HTTPException 404 "Measure not found").

Definition get_measure_details (measure_id : string) : M MeasureSummary.t :=
  '(table_name, measure_name) ← resolve_measure measure_id;
  try_except
    (connect;;
     summary_result ← execute (Select (summary_query table_name)) [];
     let summary_row := fetchone summary_result in
     details_result ← execute (Select (details_query table_name)) [];
     let details_rows := fetchall details_result in
     patient_details ← eval (mapM patient_measure_of_row details_rows) "ValidationError";
     eval (measure_summary_of_row measure_id measure_name summary_row patient_details)
          "TypeError")
    (λ e,
     logger_error ("Error getting measure details for " +:+ measure_id +:+ ": "
                   +:+ exn_str e);;
     raise (HTTPException 500 "Internal server error")).

Definition refresh_measures : M Refresh.t :=
  try_except
    (logger_info "Quality measures refresh requested";;
     mret {| Refresh.message := "Quality measures refresh initiated";
             Refresh.status := "success" |})
    (λ e,
     logger_error ("Error refreshing measures: " +:+ exn_str e);;
     raise (HTTPException 500 "Failed to refresh measures")).

(** The dictionary appended for a row of [get_patient_measures]; [info1]
    and [info2] are the keys of its [additional_info]. *)
Definition measure_entry_of_row (info1 info2 : string) (row : list value)
    : option MeasureEntry.t :=
  r0 ← row !! 0%nat; r1 ← row !! 1%nat; r2 ← row !! 2%nat;
  r3 ← row !! 3%nat; r4 ← row !! 4%nat; r5 ← row !! 5%nat;
  Some {| MeasureEntry.measure_id := r0;
          MeasureEntry.measure_name := r1;
          MeasureEntry.denominator := r2;
          MeasureEntry.numerator := r3;
          MeasureEntry.additional_info := [(info1, r4); (info2, r5)] |}.

(** One of the two sections inside the [try] of [get_patient_measures]. *)
Definition patient_block (query : select) (patient_id info1 info2 : string)
    (measures : list MeasureEntry.t) : M (list MeasureEntry.t) :=
  connect;;
  result ← execute (Select query) [("patient_id", patient_id)];
  let row := fetchone result in
  if row_truthy row then
    entry ← eval (row ≫= measure_entry_of_row info1 info2) "IndexError";
    mret (measures ++ [entry])
  else mret measures.

Definition get_patient_measures (patient_id : string) : M PatientMeasures.t :=
  try_except
    (measures ← patient_block query_patient_a1c patient_id
                  "most_recent_a1c" "most_recent_a1c_date" [];
     measures ← patient_block query_patient_bcs patient_id
                  "last_screening_date" "screening_count" measures;
     mret {| PatientMeasures.patient_id := patient_id;
             PatientMeasures.measures := measures |})
    (λ e,
     logger_error ("Error getting patient measures for " +:+ patient_id +:+ ": "
                   +:+ exn_str e);;
     raise (HTTPException 500 "Internal server error")).

(** ** The routes *)

Inductive request :=
  | GET_root
  | GET_health
  | GET_measures
  | GET_measure (measure_id : string)
  | POST_measures_refresh
  | GET_patient_measures (patient_id : string).

(** The world a request leaves behind. *)
Definition after (r : request) (w : world) : world :=
  match r with
  | GET_root => snd (serve root w)
  | GET_health => snd (serve health_check w)
  | GET_measures => snd (serve get_quality_measures w)
  | GET_measure measure_id => snd (serve (get_measure_details measure_id) w)
  | POST_measures_refresh => snd (serve refresh_measures w)
  | GET_patient_measures patient_id => snd (serve (get_patient_measures patient_id) w)
  end.

(** ** Vocabulary for the properties *)

(** The [k]-th [engine.connect()] of a request finds the store reachable. *)
Definition up (w : world) (k : nat) : bool := negb (default false (outages w !! k)).

(** The rows [patient_query] returns, from the stored row they project. *)
Definition patient_row (measure_id measure_name extra1 extra2 : string) (t : tuple)
    : list value :=
  [VStr measure_id; VStr measure_name; VInt (denominator t); VInt (numerator t);
   default VNone (column extra1 t); default VNone (column extra2 t)].

(** The store of two worlds is the same: relations, collation and clock. *)
Definition same_store (w w' : world) : Prop :=
  relations w' = relations w ∧ locale w' = locale w ∧ today w' = today w.


(** The store answers the statement [s] sent with [params]. *)
Definition answered (w : world) (s : sql) (params : list (string * string)) : Prop :=
  is_Some (run_sql (relations w) (locale w) (today w) s params).

(** Every statement the computation [m] executes satisfies [P]. *)
Definition sends (P : sql * list (string * string) → Prop) {A} (m : M A) : Prop :=
  ∀ w, ∃ l, issued (snd (m w)) = issued w ++ l ∧ Forall P l.

(** The texts the gateway can send: the literals of the source, the two
    f-strings filled with a relation of the catalog. *)
Definition gateway_texts : list string :=
  ["SELECT 1"; text_measures_a1c; text_measures_bcs; text_measures_psi;
   text_patient_a1c; text_patient_bcs]
  ++ ((λ r, text_summary_prefix +:+ r +:+ text_summary_suffix) <$> catalog_relations)
  ++ ((λ r, text_details_prefix +:+ r +:+ text_details_suffix) <$> catalog_relations).

(** A statement of the gateway: its text is one of [gateway_texts] and the
    relation it reads, if any, is one of the catalog. *)
Definition from_catalog (st : sql * list (string * string)) : Prop :=
  render_sql (fst st) ∈ gateway_texts
  ∧ relation_of (fst st) ∈ None :: (Some <$> catalog_relations).

#[global] Instance from_catalog_dec st : Decision (from_catalog st).
Proof. unfold from_catalog. apply _. Defined.

(** The dictionary [get_patient_measures] builds from a stored row. *)
Definition entry_of_tuple (measure_id measure_name extra1 extra2 : string) (t : tuple)
    : MeasureEntry.t :=
  {| MeasureEntry.measure_id := VStr measure_id;
     MeasureEntry.measure_name := VStr measure_name;
     MeasureEntry.denominator := VInt (denominator t);
     MeasureEntry.numerator := VInt (numerator t);
     MeasureEntry.additional_info :=
       [(extra1, default VNone (column extra1 t));
        (extra2, default VNone (column extra2 t))] |}.

(** The outcome of one section of [get_patient_measures] whose connection
    is the [k]-th of the request: [None] when the store is unreachable or
    refuses the statement (the identifier holds NUL, the relation or one of
    its columns is missing), otherwise the entry of the first row of the
    patient, if there is one. *)
Definition found (w : world) (k : nat) (measure_id measure_name relation extra1 extra2
    patient_id : string) : option (option MeasureEntry.t) :=
  if up w k then
    guard (nul_free patient_id);;
    rows ← relations w !! relation;
    guard (has_columns
             (named_columns (patient_query measure_id measure_name relation extra1 extra2))
             rows);;
    Some (entry_of_tuple measure_id measure_name extra1 extra2
            <$> head (filter (λ t, column "patient_id" t = Some (VStr patient_id)) rows))
  else None.

Definition found_a1c (w : world) (k : nat) (patient_id : string) :=
  found w k a1c_id a1c_name a1c_relation "most_recent_a1c" "most_recent_a1c_date" patient_id.
Definition found_bcs (w : world) (k : nat) (patient_id : string) :=
  found w k bcs_id bcs_name bcs_relation "last_screening_date" "screening_count" patient_id.

(** The answer of [GET /patients/{patient_id}/measures] and the statements
    it executes, in terms of the two sections. *)
Definition patient_response (w : world) (patient_id : string)
    : response PatientMeasures.t :=
  match found_a1c w 0 patient_id, found_bcs w 1 patient_id with
  | Some e1, Some e2 =>
      OK {| PatientMeasures.patient_id := patient_id;
            PatientMeasures.measures := option_list e1 ++ option_list e2 |}
  | _, _ => Error 500 "Internal server error"
  end.

Definition patient_statements (w : world) (patient_id : string)
    : list (sql * list (string * string)) :=
  (if up w 0 then [(Select query_patient_a1c, [("patient_id", patient_id)])] else []) ++
  match found_a1c w 0 patient_id with
  | Some _ =>
      if up w 1 then [(Select query_patient_bcs, [("patient_id", patient_id)])] else []
  | None => []
  end.

Definition set_relations (db : gmap string (list tuple)) (w : world) : world :=
  {| relations := db; locale := locale w; today := today w;
     outages := outages w; issued := issued w; logged := logged w |}.

(** ** Sample worlds *)

(** The collation by code points. *)
Definition codepoint : collation :=
  {| collate := String.leb; collate_total := String.leb_total |}.

Definition sample_row (pid name : string) (den num : Z) : tuple :=
  {| patient_id := pid; mrn := "MRN-" +:+ pid; full_name := name; age_years := 61;
     denominator := den; numerator := num; measurement_date := "2024-06-30";
     extras := [("most_recent_a1c", VDec 710); ("most_recent_a1c_date", VDate "2024-05-02");
                ("last_screening_date", VDate "2023-11-20"); ("screening_count", VInt 2)] |}.

Definition sample_world (db : gmap string (list tuple)) (outages : list bool) : world :=
  {| relations := db; locale := codepoint; today := "2024-07-01";
     outages := outages; issued := []; logged := [] |}.

(** A store with the diabetes relation only: the screening relation is
    missing, so the second statement of [get_patient_measures] is refused. *)
Definition partial_world : world :=
  sample_world {[ a1c_relation := [sample_row "p1" "Ada Quinn" 1 1] ]} [].

(** A store where patient [p9] has a row in the surgical relation only. *)
Definition surgical_world : world :=
  sample_world {[ a1c_relation := [sample_row "p1" "Ada Quinn" 1 1];
                  bcs_relation := [sample_row "p2" "Bea Roth" 1 0];
                  psi_relation := [sample_row "p9" "Cy Stone" 1 0] ]} [].

(** An identifier that holds the character NUL after [p9]; no row of
    [surgical_world] carries it. *)
Definition nul_id : string := String "p" (String "9" (String "000" EmptyString)).

(** A store whose diabetes relation holds three rows, not in the order of
    their names; the other relations are missing. *)
Definition diabetes_world : world :=
  sample_world {[ a1c_relation := [sample_row "p3" "Zoe Marsh" 1 1;
                                   sample_row "p1" "Ada Quinn" 1 0;
                                   sample_row "p2" "Bea Roth" 1 1] ]} [].

(** A store whose three relations are empty. *)
Definition empty_world : world :=
  sample_world {[ a1c_relation := []; bcs_relation := []; psi_relation := [] ]} [].

(** ** The routes, continued *)

(** The status code a request is answered with. *)
Definition reply (r : request) (w : world) : Z :=
  match r with
  | GET_root => status_code (fst (serve root w))
  | GET_health => status_code (fst (serve health_check w))
  | GET_measures => status_code (fst (serve get_quality_measures w))
  | GET_measure measure_id => status_code (fst (serve (get_measure_details measure_id) w))
  | POST_measures_refresh => status_code (fst (serve refresh_measures w))
  | GET_patient_measures patient_id =>
      status_code (fst (serve (get_patient_measures patient_id) w))
  end.

(** What a computation may do to the world: leave the store as it is, take
    connections off the front of the outage schedule, and append to the
    executed statements and to the log. *)
Definition grows (w w' : world) : Prop :=
  same_store w w'
  ∧ outages w' `suffix_of` outages w
  ∧ issued w `prefix_of` issued w'
  ∧ logged w `prefix_of` logged w'.

Definition only_grows {A} (m : M A) : Prop := ∀ w, grows w (snd (m w)).

(** A store with the three relations, where patient [p1] has two rows in
    the diabetes relation and one in the screening relation; the second
    connection of a request fails. *)
Definition full_db : gmap string (list tuple) :=
  {[ a1c_relation := [sample_row "p2" "Bea Roth" 1 0;
                      sample_row "p1" "Ada Quinn" 1 1;
                      sample_row "p1" "Ada Quinn" 1 0];
     bcs_relation := [sample_row "p1" "Ada Quinn" 1 1];
     psi_relation := [sample_row "p9" "Cy Stone" 1 0] ]}.

Definition full_world : world := sample_world full_db [].
Definition flaky_world : world := sample_world full_db [false; true; false].

(** A computation whose every run relates the world before to the world
    after by [R]. *)
Definition steps (R : relation world) {A} (m : M A) : Prop := ∀ w, R w (snd (m w)).

(** The log is left as it is. *)
Definition quiet (w w' : world) : Prop := logged w' = logged w.

(** The status codes a route can answer with. *)
Definition statuses (r : request) : list Z :=
  match r with
  | GET_root => [200]
  | GET_health => [200; 503]
  | GET_measures => [200]
  | GET_measure _ => [200; 404; 500]
  | POST_measures_refresh => [200]
  | GET_patient_measures _ => [200; 500]
  end.

(** * Properties *)

(** ** The statements render to the literals of the source *)

(** ** The statements render to the literals of the source *)

Example render_measures_a1c : render query_measures_a1c = text_measures_a1c.
Proof. vm_compute. reflexivity. Qed.
Example render_measures_bcs : render query_measures_bcs = text_measures_bcs.
Proof. vm_compute. reflexivity. Qed.
Example render_measures_psi : render query_measures_psi = text_measures_psi.
Proof. vm_compute. reflexivity. Qed.
Example render_patient_a1c : render query_patient_a1c = text_patient_a1c.
Proof. vm_compute. reflexivity. Qed.
Example render_patient_bcs : render query_patient_bcs = text_patient_bcs.
Proof. vm_compute. reflexivity. Qed.

Lemma render_summary_query table_name :
  render (summary_query table_name)
  = text_summary_prefix +:+ table_name +:+ text_summary_suffix.
Proof. reflexivity. Qed.

Lemma render_details_query table_name :
  render (details_query table_name)
  = text_details_prefix +:+ table_name +:+ text_details_suffix.
Proof. reflexivity. Qed.

(** ** What the store answers *)

Section Statements.
Context (db : gmap string (list tuple)) (loc : collation) (today : string).

Lemma mapM_total {A B} (f : A → option B) (g : A → B) l :
  (∀ x, x ∈ l → f x = Some (g x)) → mapM f l = Some (g <$> l).
Proof.
  intros H. apply mapM_Some_2, Forall2_fmap_r, Forall_Forall2_diag, Forall_forall.
  exact H.
Qed.

(** The statements of [get_quality_measures] and the summary statement of
    [get_measure_details] carry the [Rate] item: the store refuses them,
    whatever the relations hold and whatever is bound. *)
Lemma refused_measures_query measure_id measure_name relation params :
  run_sql db loc today (Select (measures_query measure_id measure_name relation)) params
  = None.
Proof. unfold run_sql, run_select. by destruct (forallb _ params). Qed.

Lemma refused_summary_query relation params :
  run_sql db loc today (Select (summary_query relation)) params = None.
Proof. unfold run_sql, run_select. by destruct (forallb _ params). Qed.

Lemma has_columns_elem cs rows c t :
  has_columns cs rows = true → t ∈ rows → c ∈ cs → is_Some (column c t).
Proof.
  unfold has_columns. intros H Ht Hc.
  rewrite forallb_forall in H. apply list_elem_of_In, H in Ht.
  rewrite forallb_forall in Ht. apply list_elem_of_In, Ht in Hc.
  apply bool_decide_eq_true in Hc. exact Hc.
Qed.

Lemma run_patient_query measure_id measure_name relation extra1 extra2 pid :
  let q := patient_query measure_id measure_name relation extra1 extra2 in
  run_sql db loc today (Select q) [("patient_id", pid)]
  = (guard (nul_free pid);;
     rows ← db !! relation;
     guard (has_columns (named_columns q) rows);;
     Some (patient_row measure_id measure_name extra1 extra2
             <$> filter (λ t, column "patient_id" t = Some (VStr pid)) rows)).
Proof.
  intros q. unfold run_sql. cbn [forallb snd].
  destruct (nul_free pid); [|reflexivity].
  cbn [andb]. change (guard true;; ?x) with x.
  unfold run_select. cbn [from patient_query q items forallb resolves andb].
  change (guard true;; ?x) with x.
  destruct (db !! relation) as [rows|]; [|reflexivity].
  cbn -[has_columns named_columns filter].
  destruct (has_columns _ rows) eqn:Hcols; [|reflexivity].
  cbn -[has_columns named_columns filter].
  apply mapM_total. intros t [_ Ht]%list_elem_of_filter.
  destruct (has_columns_elem _ _ extra1 t Hcols Ht) as [v1 E1].
  { cbn. set_solver. }
  destruct (has_columns_elem _ _ extra2 t Hcols Ht) as [v2 E2].
  { cbn. set_solver. }
  cbn. rewrite E1, E2. unfold patient_row. rewrite E1, E2. reflexivity.
Qed.
End Statements.

(** ** Running the handlers *)

(** ** Running the handlers *)

Lemma same_store_refl w : same_store w w.
Proof. by repeat split. Qed.

Lemma same_store_trans w1 w2 w3 : same_store w1 w2 → same_store w2 w3 → same_store w1 w3.
Proof. unfold same_store. intros (-> & -> & ->) (-> & -> & ->). done. Qed.

Lemma up_tail w w' k : outages w' = tail (outages w) → up w' k = up w (S k).
Proof. intros E. unfold up. rewrite E, lookup_tail. reflexivity. Qed.

Lemma up_0 w : up w 0 = match outages w with true :: _ => false | _ => true end.
Proof. unfold up. by destruct (outages w) as [|[] ?]. Qed.

Lemma connect_run w :
  ∃ w', connect w = (if up w 0 then inr () else inl (Exception "OperationalError"), w')
        ∧ same_store w w'
        ∧ outages w' = tail (outages w)
        ∧ issued w' = issued w
        ∧ logged w' = logged w.
Proof.
  rewrite up_0. unfold connect.
  destruct (outages w) as [|[] rest] eqn:Ho; eexists; (split; [reflexivity|]);
    cbn; rewrite ?Ho; by repeat split.
Qed.

Lemma execute_run s params w :
  execute s params w
  = (match run_sql (relations w) (locale w) (today w) s params with
     | Some rows => inr rows
     | None => inl (Exception "ProgrammingError")
     end, add_issued (s, params) w).
Proof. unfold execute. by destruct (run_sql _ _ _ _ _). Qed.

(** A block of [get_quality_measures] never adds a measure: when the
    connection is obtained the statement is refused.  Either way the block
    logs one line and goes on. *)
Lemma measures_block_run measure_id measure_name relation context measures w :
  ∃ w',
    measures_block (measures_query measure_id measure_name relation) context measures w
    = (inr measures, w')
    ∧ same_store w w'
    ∧ outages w' = tail (outages w)
    ∧ issued w'
      = issued w ++ (if up w 0
                     then [(Select (measures_query measure_id measure_name relation), [])]
                     else [])
    ∧ length (logged w') = S (length (logged w)).
Proof.
  unfold measures_block, try_except, mbind at 1 2, M_bind at 1 2.
  destruct (connect_run w) as (w1 & -> & Hs & Ho & Hi & Hl).
  destruct (up w 0).
  - rewrite execute_run, refused_measures_query.
    eexists. split; [reflexivity|]. cbn.
    rewrite Hi, Hl, length_app, Nat.add_1_r. by repeat split; try apply Hs.
  - eexists. split; [reflexivity|]. cbn.
    rewrite Hi, Hl, length_app, Nat.add_1_r, app_nil_r. by repeat split; try apply Hs.
Qed.

Lemma get_quality_measures_run w :
  ∃ w',
    get_quality_measures w = (inr [], w')
    ∧ same_store w w'
    ∧ outages w' = drop 3 (outages w)
    ∧ length (logged w') = (length (logged w) + 3)%nat.
Proof.
  unfold get_quality_measures, mbind, M_bind.
  destruct (measures_block_run a1c_id a1c_name a1c_relation
              "Error getting diabetes A1c measure: " [] w)
    as (w1 & E1 & S1 & O1 & _ & L1).
  fold query_measures_a1c in E1. rewrite E1.
  destruct (measures_block_run bcs_id bcs_name bcs_relation
              "Error getting breast cancer screening measure: " [] w1)
    as (w2 & E2 & S2 & O2 & _ & L2).
  fold query_measures_bcs in E2. rewrite E2.
  destruct (measures_block_run psi_id psi_name psi_relation "Error getting PSI measure: "
              [] w2)
    as (w3 & E3 & S3 & O3 & _ & L3).
  fold query_measures_psi in E3. rewrite E3.
  exists w3. split; [reflexivity|]. split; [eauto using same_store_trans|]. split.
  - rewrite O3, O2, O1. by destruct (outages w) as [|? [|? [|? ?]]].
  - rewrite L3, L2, L1. lia.
Qed.


(** ** Properties of [get_quality_measures] *)



(** At a store whose diabetes relation holds three rows of patients that
    all count for the measure: the three statements are sent, nothing is
    listed, and three lines are logged. *)
Example get_quality_measures_at_diabetes_world :
  fst (serve get_quality_measures diabetes_world) = OK []
  ∧ fst <$> issued (after GET_measures diabetes_world)
    = [Select query_measures_a1c; Select query_measures_bcs; Select query_measures_psi]
  ∧ length (logged (after GET_measures diabetes_world)) = 3%nat.
Proof. repeat split; vm_compute; reflexivity. Qed.

(** ** Properties of [get_measure_details] *)

(** ** Properties of [get_measure_details] *)

Lemma resolve_measure_unknown measure_id w :
  measure_id ∉ catalog_ids →
  resolve_measure measure_id w = (inl (HTTPException 404 "Measure not found"), w).
Proof.
  intros Hid. unfold resolve_measure.
  destruct (String.eqb_spec measure_id "HEDIS-DM-A1C") as [->|_].
  { exfalso. apply Hid. compute_done. }
  destruct (String.eqb_spec measure_id "HEDIS-BCS") as [->|_].
  { exfalso. apply Hid. compute_done. }
  destruct (String.eqb_spec measure_id "HVBP-PSI-04") as [->|_].
  { exfalso. apply Hid. compute_done. }
  reflexivity.
Qed.

Lemma resolve_measure_known measure_id relation measure_name w :
  (measure_id, (relation, measure_name)) ∈ catalog →
  resolve_measure measure_id w = (inr (relation, measure_name), w).
Proof.
  unfold catalog. rewrite !elem_of_cons, elem_of_nil.
  intros [E|[E|[E|[]]]]; injection E as -> -> ->; reflexivity.
Qed.

(** For an identifier of the catalog the summary statement is refused when
    it is sent, so the request fails either at the connection or there: the
    details statement is never executed and no model class is built. *)
Lemma get_measure_details_effects measure_id relation measure_name w :
  (measure_id, (relation, measure_name)) ∈ catalog →
  ∃ w',
    serve (get_measure_details measure_id) w = (Error 500 "Internal server error", w')
    ∧ same_store w w'
    ∧ outages w' = tail (outages w)
    ∧ issued w'
      = issued w ++ (if up w 0 then [(Select (summary_query relation), [])] else [])
    ∧ length (logged w') = S (length (logged w)).
Proof.
  intros Hin.
  unfold serve, get_measure_details, mbind at 1, M_bind at 1.
  rewrite (resolve_measure_known _ _ _ _ Hin).
  unfold try_except, mbind, M_bind.
  destruct (connect_run w) as (w1 & -> & Hs & Ho & Hi & Hl).
  destruct (up w 0).
  - rewrite execute_run, refused_summary_query.
    eexists. split; [reflexivity|]. cbn.
    rewrite Hi, Hl, length_app, Nat.add_1_r. by repeat split; try apply Hs.
  - eexists. split; [reflexivity|]. cbn.
    rewrite Hi, Hl, length_app, Nat.add_1_r, app_nil_r. by repeat split; try apply Hs.
Qed.

Lemma get_measure_details_run measure_id relation measure_name w :
  (measure_id, (relation, measure_name)) ∈ catalog →
  fst (serve (get_measure_details measure_id) w) = Error 500 "Internal server error".
Proof.
  intros Hin. by destruct (get_measure_details_effects _ _ _ w Hin) as (w' & -> & _).
Qed.

Lemma get_measure_details_not_found (w : world) (measure_id : string) :
  measure_id ∉ catalog_ids →
  fst (serve (get_measure_details measure_id) w) = Error 404 "Measure not found".
Proof.
  intros Hid. unfold serve, get_measure_details, mbind, M_bind.
  by rewrite (resolve_measure_unknown _ _ Hid).
Qed.

(** C4.  An identifier outside the catalog is answered 404 with the detail
    [Measure not found], and the world is left as it was: no connection is
    taken, no statement executed, nothing logged.  The comparison is that
    of strings, so an identifier in another case is unknown. *)
Theorem get_measure_details_unknown (w : world) (measure_id : string) :
  measure_id ∉ catalog_ids →
  serve (get_measure_details measure_id) w = (Error 404 "Measure not found", w).
Proof.
  intros Hid. unfold serve, get_measure_details, mbind, M_bind.
  by rewrite (resolve_measure_unknown _ _ Hid).
Qed.

(** Conversely a catalog identifier is never answered 404. *)
Lemma get_measure_details_known (w : world) (measure_id : string) :
  measure_id ∈ catalog_ids →
  status_code (fst (serve (get_measure_details measure_id) w)) ≠ 404.
Proof.
  unfold catalog_ids. intros ([id [relation name]] & -> & Hin)%list_elem_of_fmap.
  by rewrite (get_measure_details_run _ _ _ _ Hin).
Qed.

(** C5, as stated, fails of the code.  For a catalog measure whose
    relation is empty, on a reachable store, the answer is 500 with the
    detail [Internal server error], not 200 with zeros: the summary
    statement is refused for its [ROUND] before a row is read, and the
    [except] of the handler turns the refusal into the error. *)
Theorem get_measure_details_empty_refused (w : world) measure_id relation measure_name :
  (measure_id, (relation, measure_name)) ∈ catalog →
  up w 0 = true →
  relations w !! relation = Some [] →
  fst (serve (get_measure_details measure_id) w) = Error 500 "Internal server error"
  ∧ ¬ answered w (Select (summary_query relation)) [].
Proof.
  intros Hin _ _. split; [by apply (get_measure_details_run _ relation measure_name)|].
  unfold answered. rewrite refused_summary_query. apply is_Some_None.
Qed.


(** At a store whose diabetes relation holds three rows out of the order
    of their names: a 500, after the summary statement alone. *)
Example get_measure_details_at_diabetes_world :
  fst (serve (get_measure_details "HEDIS-DM-A1C") diabetes_world)
  = Error 500 "Internal server error"
  ∧ fst <$> issued (after (GET_measure "HEDIS-DM-A1C") diabetes_world)
    = [Select (summary_query a1c_relation)].
Proof. split; vm_compute; reflexivity. Qed.

(** ** Properties of [get_patient_measures] *)

(** ** Properties of [get_patient_measures] *)

Lemma found_shift w w' k measure_id measure_name relation extra1 extra2 pid :
  same_store w w' → outages w' = tail (outages w) →
  found w' k measure_id measure_name relation extra1 extra2 pid
  = found w (S k) measure_id measure_name relation extra1 extra2 pid.
Proof.
  intros (Er & _ & _) Eo. unfold found. by rewrite (up_tail w w' k Eo), Er.
Qed.

Lemma patient_block_run measure_id measure_name relation extra1 extra2 pid measures w :
  let q := patient_query measure_id measure_name relation extra1 extra2 in
  ∃ w' result,
    patient_block q pid extra1 extra2 measures w = (result, w')
    ∧ same_store w w'
    ∧ outages w' = tail (outages w)
    ∧ issued w' = issued w ++ (if up w 0 then [(Select q, [("patient_id", pid)])] else [])
    ∧ match found w 0 measure_id measure_name relation extra1 extra2 pid with
      | Some entry => result = inr (measures ++ option_list entry)
      | None => ∃ e, result = inl (Exception e)
      end.
Proof.
  intros q. unfold found, patient_block, mbind at 1 2, M_bind at 1 2.
  destruct (connect_run w) as (w1 & -> & Hs & Ho & Hi & _).
  destruct (up w 0).
  2:{ exists w1, (inl (Exception "OperationalError")).
      rewrite app_nil_r. by eauto 10. }
  rewrite execute_run. subst q. rewrite run_patient_query.
  pose proof Hs as (Hr & Hl & Ht). rewrite Hr.
  assert (Hw : ∀ st, same_store w (add_issued st w1)
                     ∧ outages (add_issued st w1) = tail (outages w)
                     ∧ issued (add_issued st w1) = issued w ++ [st]).
  { intros st. cbn. by rewrite Hi. }
  destruct (Hw (Select (patient_query measure_id measure_name relation extra1 extra2),
                [("patient_id", pid)])) as (? & ? & ?).
  destruct (nul_free pid); cycle 1.
  { eexists _, _. split; [reflexivity|]. repeat (split; [done|]). by eexists. }
  change (guard true;; ?x) with x.
  destruct (relations w !! relation) as [rows|]; cycle 1.
  { eexists _, _. split; [reflexivity|]. repeat (split; [done|]). cbn. by eauto. }
  cbn -[patient_query named_columns filter has_columns].
  destruct (has_columns _ rows); cycle 1.
  { eexists _, _. split; [reflexivity|]. repeat (split; [done|]). by eexists. }
  cbn -[patient_query named_columns filter].
  destruct (filter _ rows) as [|t ts]; cbn -[patient_query named_columns add_issued];
    eexists _, _; (split; [reflexivity|]); repeat (split; [done|]);
    hnf; by rewrite ?app_nil_r.
Qed.

Lemma get_patient_measures_run pid w :
  ∃ w',
    serve (get_patient_measures pid) w = (patient_response w pid, w')
    ∧ same_store w w'
    ∧ issued w' = issued w ++ patient_statements w pid.
Proof.
  unfold patient_response, patient_statements, found_a1c, found_bcs.
  unfold serve, get_patient_measures, try_except, mbind at 1 2, M_bind at 1 2.
  destruct (patient_block_run a1c_id a1c_name a1c_relation
              "most_recent_a1c" "most_recent_a1c_date" pid [] w)
    as (w1 & r1 & E1 & S1 & O1 & I1 & F1).
  fold query_patient_a1c in E1, I1. rewrite E1.
  destruct (found w 0 a1c_id _ _ _ _ pid) as [e1|].
  2:{ destruct F1 as [e ->]. eexists. split; [reflexivity|].
      cbn. rewrite I1, app_nil_r. by destruct S1 as (? & ? & ?). }
  subst r1.
  destruct (patient_block_run bcs_id bcs_name bcs_relation
              "last_screening_date" "screening_count" pid ([] ++ option_list e1) w1)
    as (w2 & r2 & E2 & S2 & O2 & I2 & F2).
  fold query_patient_bcs in E2, I2. rewrite E2.
  rewrite (found_shift w w1 0 _ _ _ _ _ _ S1 O1) in F2.
  rewrite (up_tail w w1 0 O1) in I2.
  pose proof (same_store_trans _ _ _ S1 S2) as (? & ? & ?).
  destruct (found w 1 bcs_id _ _ _ _ pid) as [e2|].
  - subst r2. eexists. split; [reflexivity|].
    cbn. rewrite I2, I1, <- app_assoc. done.
  - destruct F2 as [e ->]. eexists. split; [reflexivity|].
    cbn. rewrite I2, I1, <- app_assoc. done.
Qed.

Lemma found_is_Some w k measure_id measure_name relation extra1 extra2 pid :
  is_Some (found w k measure_id measure_name relation extra1 extra2 pid)
  ↔ up w k = true
    ∧ answered w (Select (patient_query measure_id measure_name relation extra1 extra2))
        [("patient_id", pid)].
Proof.
  unfold found, answered. rewrite run_patient_query.
  destruct (up w k); cycle 1.
  { split; [by intros ?%is_Some_None|by intros [? _]]. }
  destruct (nul_free pid); cycle 1.
  { split; [by intros ?%is_Some_None|by intros [_ ?%is_Some_None]]. }
  change (guard true;; ?x) with x.
  destruct (relations w !! relation) as [rows|]; cycle 1.
  { split; [by intros ?%is_Some_None|by intros [_ ?%is_Some_None]]. }
  cbn -[patient_query named_columns filter has_columns].
  destruct (has_columns _ rows).
  - split; [intros _; split; [done|]|intros _]; hnf; eauto.
  - split; [intros H|intros [_ H]]; exfalso; revert H; apply is_Some_None.
Qed.

(** The driver refuses an identifier that holds NUL. *)
Lemma answered_nul_free w measure_id measure_name relation extra1 extra2 pid :
  answered w (Select (patient_query measure_id measure_name relation extra1 extra2))
    [("patient_id", pid)] →
  nul_free pid = true.
Proof.
  unfold answered. rewrite run_patient_query.
  destruct (nul_free pid); [done|]. by intros ?%is_Some_None.
Qed.

Lemma found_nul w k measure_id measure_name relation extra1 extra2 pid :
  nul_free pid = false →
  found w k measure_id measure_name relation extra1 extra2 pid = None.
Proof. intros H. unfold found. rewrite H. by destruct (up w k). Qed.

(** C1, as it holds.  When a connection of the sweep fails or the store
    refuses one of its two statements, [GET /patients/{id}/measures]
    answers 500 with the detail [Internal server error]: the single [try]
    around both sections turns the failure into the error, and no list of
    measures is returned. *)
Theorem get_patient_measures_failure (w : world) (patient_id : string) :
  up w 0 = false
  ∨ ¬ answered w (Select query_patient_a1c) [("patient_id", patient_id)]
  ∨ up w 1 = false
  ∨ ¬ answered w (Select query_patient_bcs) [("patient_id", patient_id)] →
  fst (serve (get_patient_measures patient_id) w) = Error 500 "Internal server error".
Proof.
  intros Hfail.
  destruct (get_patient_measures_run patient_id w) as (w' & -> & _). cbn [fst].
  unfold patient_response.
  destruct (found_a1c w 0 patient_id) as [e1|] eqn:E1; [|done].
  destruct (found_bcs w 1 patient_id) as [e2|] eqn:E2; [|done].
  exfalso.
  assert (H1 : is_Some (found_a1c w 0 patient_id)) by (by rewrite E1).
  assert (H2 : is_Some (found_bcs w 1 patient_id)) by (by rewrite E2).
  apply found_is_Some in H1 as [U1 A1]. apply found_is_Some in H2 as [U2 A2].
  destruct Hfail as [?|[?|[?|?]]]; [congruence|done|congruence|done].
Qed.

(** C1, as stated, fails: with the screening relation missing the second
    statement is refused, and the answer is a 500, not a 200 without the
    measure. *)
Lemma get_patient_measures_surfaces_failure :
  ¬ answered partial_world (Select query_patient_bcs) [("patient_id", "p1")]
  ∧ fst (serve (get_patient_measures "p1") partial_world)
    = Error 500 "Internal server error"
  ∧ status_code (fst (serve (get_patient_measures "p1") partial_world)) ≠ 200.
Proof.
  split; [|split].
  - intros H. revert H. apply eq_None_not_Some. vm_compute. reflexivity.
  - vm_compute. reflexivity.
  - vm_compute. discriminate.
Qed.

Lemma found_no_match w k measure_id measure_name relation extra1 extra2 pid :
  up w k = true →
  answered w (Select (patient_query measure_id measure_name relation extra1 extra2))
    [("patient_id", pid)] →
  (∀ rows t, relations w !! relation = Some rows → t ∈ rows → patient_id t ≠ pid) →
  found w k measure_id measure_name relation extra1 extra2 pid = Some None.
Proof.
  intros Hup Hans Hno.
  assert (Hf : is_Some (found w k measure_id measure_name relation extra1 extra2 pid))
    by (by apply found_is_Some).
  revert Hf. unfold found. rewrite Hup, (answered_nul_free _ _ _ _ _ _ _ Hans).
  change (guard true;; ?x) with x.
  destruct (relations w !! relation) as [rows|] eqn:Hrel; [|by intros ?%is_Some_None].
  cbn -[patient_query named_columns filter has_columns].
  destruct (has_columns _ rows); [|by intros ?%is_Some_None]. intros _.
  match goal with
  | |- context [filter ?P rows] => assert (E : filter P rows = [])
  end.
  { pose proof (Hno rows) as Hrows. clear -Hrows.
    induction rows as [|t rows IH]; [reflexivity|].
    rewrite filter_cons. destruct (decide _) as [[= Hp]|_].
    - exfalso. apply (Hrows t); [done|left|done].
    - apply IH. intros t' ? ?. apply Hrows; [done|by right]. }
  rewrite E. reflexivity.
Qed.

Lemma patient_statements_relations w pid :
  Forall (λ st, relation_of (fst st) ∈ [Some a1c_relation; Some bcs_relation])
         (patient_statements w pid).
Proof.
  unfold patient_statements.
  destruct (up w 0), (found_a1c w 0 pid), (up w 1); cbn;
    repeat (constructor; [compute_done|]); constructor.
Qed.

(** C7, as stated, fails: no row of the three relations carries the
    identifier [nul_id], the store is reachable and holds the relations,
    and the answer is a 500, not a 200 with an empty list.  The driver
    refuses a bound string that holds NUL, and the [except] of the handler
    turns the refusal into the error. *)
Lemma get_patient_measures_nul_identifier :
  up surgical_world 0 = true
  ∧ (∀ relation rows t,
       relations surgical_world !! relation = Some rows → t ∈ rows →
       patient_id t ≠ nul_id)
  ∧ fst (serve (get_patient_measures nul_id) surgical_world)
    = Error 500 "Internal server error"
  ∧ status_code (fst (serve (get_patient_measures nul_id) surgical_world)) ≠ 200.
Proof.
  split; [reflexivity|]. split; [|split].
  - assert (H : map_Forall (λ _ rows, Forall (λ t, patient_id t ≠ nul_id) rows)
                  (relations surgical_world)) by compute_done.
    intros relation rows t Hrel Ht.
    exact (proj1 (Forall_forall _ _) (H relation rows Hrel) t Ht).
  - vm_compute. reflexivity.
  - vm_compute. discriminate.
Qed.

(** C7, as it holds.  [GET /patients/{id}/measures] is never answered
    404, a 200 answer carries the identifier as it was given, and the
    statements of the request read the two measure relations only: the
    patient is looked up nowhere else.  When the store is reachable and
    answers both statements, which it does for no identifier that holds
    NUL, and no row of the two relations carries the identifier, the answer
    is 200 with an empty list of measures.  For an identifier that holds
    NUL the answer is 500, whatever the relations hold. *)
Theorem get_patient_measures_no_rows (w : world) (pid : string) :
  status_code (fst (serve (get_patient_measures pid) w)) ≠ 404
  ∧ (∀ body, fst (serve (get_patient_measures pid) w) = OK body →
             PatientMeasures.patient_id body = pid)
  ∧ (∃ l, issued (after (GET_patient_measures pid) w) = issued w ++ l
          ∧ Forall (λ st, relation_of (fst st) ∈ [Some a1c_relation; Some bcs_relation]) l)
  ∧ (up w 0 = true → up w 1 = true →
     answered w (Select query_patient_a1c) [("patient_id", pid)] →
     answered w (Select query_patient_bcs) [("patient_id", pid)] →
     (∀ relation rows t,
        relation ∈ [a1c_relation; bcs_relation] → relations w !! relation = Some rows →
        t ∈ rows → patient_id t ≠ pid) →
     nul_free pid = true
     ∧ fst (serve (get_patient_measures pid) w)
       = OK {| PatientMeasures.patient_id := pid;
               PatientMeasures.measures := [] |})
  ∧ (nul_free pid = false →
     fst (serve (get_patient_measures pid) w) = Error 500 "Internal server error").
Proof.
  unfold after.
  destruct (get_patient_measures_run pid w) as (w' & -> & _ & Hi). cbn [fst snd].
  unfold patient_response. split; [|split; [|split; [|split]]].
  - destruct (found_a1c w 0 pid), (found_bcs w 1 pid); cbn; lia.
  - intros body.
    destruct (found_a1c w 0 pid), (found_bcs w 1 pid); try done. by intros [= <-].
  - exists (patient_statements w pid). split; [exact Hi|].
    apply patient_statements_relations.
  - intros U0 U1 A0 A1 Hno. split; [exact (answered_nul_free _ _ _ _ _ _ _ A0)|].
    unfold found_a1c, found_bcs.
    rewrite (found_no_match w 0) by (try done; intros ??; apply Hno; compute_done).
    rewrite (found_no_match w 1) by (try done; intros ??; apply Hno; compute_done).
    reflexivity.
  - intros Hnul. unfold found_a1c. by rewrite (found_nul _ _ _ _ _ _ _ _ Hnul).
Qed.

Lemma found_measure_id w k measure_id measure_name relation extra1 extra2 pid e :
  found w k measure_id measure_name relation extra1 extra2 pid = Some (Some e) →
  MeasureEntry.measure_id e = VStr measure_id.
Proof.
  unfold found. destruct (up w k); [|done].
  destruct (nul_free pid); [|done]. change (guard true;; ?x) with x.
  destruct (relations w !! relation) as [rows|]; [|done].
  cbn -[patient_query named_columns filter has_columns].
  destruct (has_columns _ rows); [|done].
  cbn -[patient_query named_columns filter].
  destruct (head _) as [t|]; [|done]. by intros [= <-].
Qed.

Lemma found_frame w w' k measure_id measure_name relation extra1 extra2 pid :
  relations w' !! relation = relations w !! relation →
  outages w' = outages w →
  found w' k measure_id measure_name relation extra1 extra2 pid
  = found w k measure_id measure_name relation extra1 extra2 pid.
Proof. intros Hr Ho. unfold found, up. by rewrite Hr, Ho. Qed.

Lemma elem_of_option_list {A} (o : option A) (x : A) : x ∈ option_list o → o = Some x.
Proof.
  destruct o as [y|]; cbn.
  - by intros ->%list_elem_of_singleton.
  - by intros ?%elem_of_nil.
Qed.

(** C10.  A 200 answer of [GET /patients/{id}/measures] lists at most two
    measures, no identifier twice, and only [HEDIS-DM-A1C] and
    [HEDIS-BCS].  The request executes no statement on the surgical
    relation, and its answer is the same whatever that relation holds: a
    patient with rows there only gets an empty list. *)
Theorem get_patient_measures_two_relations (w : world) (pid : string) body :
  fst (serve (get_patient_measures pid) w) = OK body →
  (length (PatientMeasures.measures body) ≤ 2)%nat
  ∧ NoDup (MeasureEntry.measure_id <$> PatientMeasures.measures body)
  ∧ (∀ e, e ∈ PatientMeasures.measures body →
          MeasureEntry.measure_id e = VStr "HEDIS-DM-A1C"
          ∨ MeasureEntry.measure_id e = VStr "HEDIS-BCS")
  ∧ (∃ l, issued (after (GET_patient_measures pid) w) = issued w ++ l
          ∧ Forall (λ st, relation_of (fst st) ≠ Some psi_relation) l)
  ∧ (∀ rows,
       fst (serve (get_patient_measures pid)
              (set_relations (<[psi_relation := rows]> (relations w)) w))
       = OK body).
Proof.
  intros Hok.
  destruct (get_patient_measures_run pid w) as (w' & E & _ & Hi).
  assert (Hframe : ∀ rows,
            fst (serve (get_patient_measures pid)
                   (set_relations (<[psi_relation := rows]> (relations w)) w))
            = patient_response w pid).
  { intros rows.
    destruct (get_patient_measures_run pid
                (set_relations (<[psi_relation := rows]> (relations w)) w))
      as (w'' & -> & _).
    cbn [fst]. unfold patient_response, found_a1c, found_bcs.
    rewrite !(found_frame w (set_relations _ w)); try done;
      cbn; by rewrite lookup_insert_ne. }
  unfold after. rewrite E in Hok |- *. cbn [fst snd] in *.
  assert (Hl : ∃ l, issued w' = issued w ++ l
                    ∧ Forall (λ st, relation_of (fst st) ≠ Some psi_relation) l).
  { exists (patient_statements w pid). split; [done|].
    eapply Forall_impl; [apply patient_statements_relations|].
    intros st Hst. cbn in Hst. intros Hpsi. rewrite Hpsi in Hst.
    revert Hst. compute_done. }
  unfold patient_response in *.
  destruct (found_a1c w 0 pid) as [e1|] eqn:E1; [|done].
  destruct (found_bcs w 1 pid) as [e2|] eqn:E2; [|done].
  injection Hok as <-. cbn [PatientMeasures.measures].
  assert (H1 : ∀ e, e1 = Some e → MeasureEntry.measure_id e = VStr "HEDIS-DM-A1C").
  { intros e ->. exact (found_measure_id _ _ _ _ _ _ _ _ _ E1). }
  assert (H2 : ∀ e, e2 = Some e → MeasureEntry.measure_id e = VStr "HEDIS-BCS").
  { intros e ->. exact (found_measure_id _ _ _ _ _ _ _ _ _ E2). }
  repeat split; [| | |exact Hl|exact Hframe].
  - destruct e1, e2; cbn; lia.
  - destruct e1 as [e1|], e2 as [e2|]; cbn;
      rewrite ?(H1 _ eq_refl), ?(H2 _ eq_refl); compute_done.
  - intros e. rewrite elem_of_app.
    intros [He|He]; apply elem_of_option_list in He; eauto.
Qed.

(** ** The statements the handlers execute *)

Section Sends.
Context (P : sql * list (string * string) → Prop).

Lemma sends_ret {A} (a : A) : sends P (mret a).
Proof. intros w. exists []. by rewrite app_nil_r. Qed.

Lemma sends_raise {A} e : sends P (@raise A e).
Proof. intros w. exists []. by rewrite app_nil_r. Qed.

Lemma sends_eval {A} (o : option A) error : sends P (eval o error).
Proof. destruct o; [apply sends_ret|apply sends_raise]. Qed.

Lemma sends_logger_info line : sends P (logger_info line).
Proof. intros w. exists []. by rewrite app_nil_r. Qed.

Lemma sends_logger_error line : sends P (logger_error line).
Proof. intros w. exists []. by rewrite app_nil_r. Qed.

Lemma sends_connect : sends P connect.
Proof.
  intros w. exists []. rewrite app_nil_r. unfold connect.
  by destruct (outages w) as [|[] ?].
Qed.

Lemma sends_execute s params : P (s, params) → sends P (execute s params).
Proof.
  intros HP w. exists [(s, params)]. rewrite execute_run. cbn. split; [done|].
  by constructor.
Qed.

Lemma sends_bind {A B} (m : M A) (f : A → M B) :
  sends P m → (∀ a, sends P (f a)) → sends P (m ≫= f).
Proof.
  intros Hm Hf w. unfold mbind, M_bind.
  destruct (Hm w) as (l1 & E1 & F1). destruct (m w) as [[e|a] w1]; cbn in *.
  - by exists l1.
  - destruct (Hf a w1) as (l2 & E2 & F2). exists (l1 ++ l2).
    rewrite E2, E1, app_assoc. split; [done|]. by apply Forall_app.
Qed.

Lemma sends_bind_ret {A B} (a : A) (f : A → M B) :
  sends P (f a) → sends P (mret a ≫= f).
Proof. intros H w. exact (H w). Qed.

Lemma sends_bind_raise {A B} e (f : A → M B) : sends P (raise e ≫= f).
Proof. intros w. exists []. by rewrite app_nil_r. Qed.

Lemma sends_try_except {A} (body : M A) (handler : exn → M A) :
  sends P body → (∀ e, sends P (handler e)) → sends P (try_except body handler).
Proof.
  intros Hm Hf w. unfold try_except.
  destruct (Hm w) as (l1 & E1 & F1). destruct (body w) as [[e|a] w1]; cbn in *.
  - destruct (Hf e w1) as (l2 & E2 & F2). exists (l1 ++ l2).
    rewrite E2, E1, app_assoc. split; [done|]. by apply Forall_app.
  - by exists l1.
Qed.
End Sends.

(** Discharges [sends P m] for a handler made of the primitives, given the
    statements it executes satisfy [P]. *)
Ltac sends_steps tac :=
  repeat first
    [ apply sends_ret | apply sends_raise | apply sends_eval
    | apply sends_logger_info | apply sends_logger_error | apply sends_connect
    | apply sends_execute; tac
    | apply sends_bind_ret | apply sends_bind_raise
    | apply sends_bind | apply sends_try_except
    | progress intros | progress cbv zeta
    | match goal with |- sends _ (if ?b then _ else _) => destruct b end ].

Lemma serve_snd {A} (m : M A) w : snd (serve m w) = snd (m w).
Proof. unfold serve. by destruct (m w) as [[[]|] ?]. Qed.

Lemma sends_get_quality_measures : sends from_catalog get_quality_measures.
Proof.
  unfold get_quality_measures, measures_block. sends_steps ltac:(compute_done).
Qed.

Lemma sends_health_check : sends from_catalog health_check.
Proof. unfold health_check. sends_steps ltac:(compute_done). Qed.

Lemma sends_refresh_measures P : sends P refresh_measures.
Proof. unfold refresh_measures. sends_steps ltac:(fail). Qed.

Lemma sends_get_patient_measures pid :
  sends (λ st, from_catalog st ∧ snd st = [("patient_id", pid)])
        (get_patient_measures pid).
Proof.
  unfold get_patient_measures, patient_block.
  sends_steps ltac:(split; [compute_done|reflexivity]).
Qed.

Lemma sends_get_measure_details measure_id :
  sends from_catalog (get_measure_details measure_id).
Proof.
  unfold get_measure_details, resolve_measure.
  repeat match goal with |- context [String.eqb measure_id ?s] =>
    destruct (String.eqb measure_id s) end;
    sends_steps ltac:(compute_done).
Qed.

(** Whether the store answers a statement of the sweep depends on the
    identifier only through its holding NUL. *)
Lemma found_is_Some_indep w k measure_id measure_name relation extra1 extra2 pid1 pid2 :
  nul_free pid1 = nul_free pid2 →
  is_Some (found w k measure_id measure_name relation extra1 extra2 pid1)
  → is_Some (found w k measure_id measure_name relation extra1 extra2 pid2).
Proof.
  intros Hnul. unfold found. rewrite <- Hnul. destruct (up w k); [|done].
  destruct (nul_free pid1); [|done]. change (guard true;; ?x) with x.
  destruct (relations w !! relation) as [rows|]; [|done].
  cbn -[patient_query named_columns filter has_columns].
  destruct (has_columns _ rows); [|done]. intros _. hnf. eauto.
Qed.

Lemma patient_statements_texts w pid1 pid2 :
  nul_free pid1 = nul_free pid2 →
  render_sql ∘ fst <$> patient_statements w pid1
  = render_sql ∘ fst <$> patient_statements w pid2.
Proof.
  intros Hnul. unfold patient_statements. rewrite !fmap_app. f_equal.
  { by destruct (up w 0). }
  unfold found_a1c.
  destruct (found w 0 _ _ _ _ _ pid1) as [e1|] eqn:E1,
           (found w 0 _ _ _ _ _ pid2) as [e2|] eqn:E2.
  - by destruct (up w 1).
  - assert (H : is_Some (found w 0 a1c_id a1c_name a1c_relation
                           "most_recent_a1c" "most_recent_a1c_date" pid2)).
    { apply (found_is_Some_indep _ _ _ _ _ _ _ pid1); [done|]. by rewrite E1. }
    rewrite E2 in H. by apply is_Some_None in H.
  - assert (H : is_Some (found w 0 a1c_id a1c_name a1c_relation
                           "most_recent_a1c" "most_recent_a1c_date" pid1)).
    { apply (found_is_Some_indep _ _ _ _ _ _ _ pid2); [done|]. by rewrite E2. }
    rewrite E1 in H. by apply is_Some_None in H.
  - done.
Qed.

Lemma patient_statements_prefix w pid :
  render_sql ∘ fst <$> patient_statements w pid
  `prefix_of` [text_patient_a1c; text_patient_bcs].
Proof.
  unfold patient_statements.
  destruct (up w 0) eqn:U0; cycle 1.
  { unfold found_a1c, found. rewrite U0. apply prefix_nil. }
  destruct (found_a1c w 0 pid), (up w 1); cbn;
    rewrite <- ?render_patient_a1c, <- ?render_patient_bcs;
    first [by apply prefix_cons, prefix_nil | done].
Qed.

(** C9, as stated, fails: from one world the request with the identifier
    [p9] executes two statements and the request with [nul_id] one, since
    the driver refuses the first and the handler stops there; the texts
    sent are not the same. *)
Lemma statement_count_depends_on_input :
  render_sql ∘ fst <$> issued (after (GET_patient_measures "p9") surgical_world)
  = [text_patient_a1c; text_patient_bcs]
  ∧ render_sql ∘ fst <$> issued (after (GET_patient_measures nul_id) surgical_world)
    = [text_patient_a1c]
  ∧ render_sql ∘ fst <$> issued (after (GET_patient_measures "p9") surgical_world)
    ≠ render_sql ∘ fst <$> issued (after (GET_patient_measures nul_id) surgical_world).
Proof.
  assert (H1 : render_sql ∘ fst
               <$> issued (after (GET_patient_measures "p9") surgical_world)
               = [text_patient_a1c; text_patient_bcs]) by (vm_compute; reflexivity).
  assert (H2 : render_sql ∘ fst
               <$> issued (after (GET_patient_measures nul_id) surgical_world)
               = [text_patient_a1c]) by (vm_compute; reflexivity).
  split; [exact H1|]. split; [exact H2|]. rewrite H1, H2. by intros [=].
Qed.

(** C9, as it holds.  From one world, two requests
    [GET /patients/{id}/measures] whose identifiers both hold NUL or both
    do not execute statements of the same text; for any identifier the
    texts are the two literals of the source in their order, or the first
    of them, or none, so a text never depends on the identifier, only how
    far the request gets.  The identifier reaches the store as the bound
    parameter [patient_id] only.  Whatever the request, the text of each
    statement it executes is one of the fixed texts of the gateway, and the
    relation it reads is one of the catalog. *)
Theorem statements_do_not_depend_on_input (w : world) :
  (∀ pid1 pid2,
     nul_free pid1 = nul_free pid2 →
     render_sql ∘ fst <$> issued (after (GET_patient_measures pid1) w)
     = render_sql ∘ fst <$> issued (after (GET_patient_measures pid2) w))
  ∧ (∀ pid, ∃ l, issued (after (GET_patient_measures pid) w) = issued w ++ l
                 ∧ render_sql ∘ fst <$> l `prefix_of` [text_patient_a1c; text_patient_bcs])
  ∧ (∀ pid, ∃ l, issued (after (GET_patient_measures pid) w) = issued w ++ l
                 ∧ Forall (λ st, snd st = [("patient_id", pid)]) l)
  ∧ (∀ r, ∃ l, issued (after r w) = issued w ++ l ∧ Forall from_catalog l).
Proof.
  split; [|split; [|split]].
  - intros pid1 pid2 Hnul. unfold after.
    destruct (get_patient_measures_run pid1 w) as (w1 & -> & _ & I1).
    destruct (get_patient_measures_run pid2 w) as (w2 & -> & _ & I2).
    cbn [snd]. rewrite I1, I2, !fmap_app. f_equal. by apply patient_statements_texts.
  - intros pid. unfold after.
    destruct (get_patient_measures_run pid w) as (w1 & -> & _ & I1). cbn [snd].
    exists (patient_statements w pid). split; [exact I1|].
    apply patient_statements_prefix.
  - intros pid. unfold after. rewrite serve_snd.
    destruct (sends_get_patient_measures pid w) as (l & E & F).
    exists l. split; [done|]. eapply Forall_impl; [exact F|]. by intros st [_ ?].
  - intros r. unfold after. destruct r as [| | |measure_id| |pid]; rewrite serve_snd.
    + apply sends_ret.
    + apply sends_health_check.
    + apply sends_get_quality_measures.
    + apply sends_get_measure_details.
    + apply sends_refresh_measures.
    + destruct (sends_get_patient_measures pid w) as (l & E & F).
      exists l. split; [done|]. eapply Forall_impl; [exact F|]. by intros st [? _].
Qed.

(** ** [refresh_measures] *)

(** The answers of the reading endpoints depend on the store and on its
    reachability only. *)
Lemma answers_frame w w' :
  same_store w w' → outages w' = outages w →
  fst (serve get_quality_measures w') = fst (serve get_quality_measures w)
  ∧ (∀ measure_id, fst (serve (get_measure_details measure_id) w')
                   = fst (serve (get_measure_details measure_id) w))
  ∧ (∀ pid, fst (serve (get_patient_measures pid) w')
            = fst (serve (get_patient_measures pid) w)).
Proof.
  intros Hs Ho. split; [|split].
  - destruct (get_quality_measures_run w) as (w1 & E1 & _).
    destruct (get_quality_measures_run w') as (w2 & E2 & _).
    unfold serve. by rewrite E1, E2.
  - intros measure_id.
    destruct (decide (measure_id ∈ catalog_ids)) as [Hid|Hid]; cycle 1.
    { by rewrite !(get_measure_details_not_found _ _ Hid). }
    unfold catalog_ids in Hid.
    apply list_elem_of_fmap in Hid as ([id [relation name]] & -> & Hin).
    by rewrite !(get_measure_details_run _ _ _ _ Hin).
  - intros pid.
    destruct (get_patient_measures_run pid w) as (w1 & -> & _).
    destruct (get_patient_measures_run pid w') as (w2 & -> & _).
    cbn [fst]. unfold patient_response, found_a1c, found_bcs.
    destruct Hs as (Hr & _ & _).
    by rewrite !(found_frame w w') by (by rewrite ?Hr).
Qed.

(** C8.  [POST /measures/refresh] answers 200 with status [success] in
    every world.  It takes no connection and executes no statement; the
    store is as before, so the answers of [GET /measures],
    [GET /measures/{id}] and [GET /patients/{id}/measures] are the same
    after it as before it.  A second call answers the same and leaves the
    same store: only the log grows. *)
Theorem refresh_measures_changes_nothing (w : world) :
  let w' := after POST_measures_refresh w in
  fst (serve refresh_measures w)
  = OK {| Refresh.message := "Quality measures refresh initiated";
          Refresh.status := "success" |}
  ∧ same_store w w' ∧ outages w' = outages w ∧ issued w' = issued w
  ∧ fst (serve get_quality_measures w') = fst (serve get_quality_measures w)
  ∧ (∀ measure_id, fst (serve (get_measure_details measure_id) w')
                   = fst (serve (get_measure_details measure_id) w))
  ∧ (∀ pid, fst (serve (get_patient_measures pid) w')
            = fst (serve (get_patient_measures pid) w))
  ∧ fst (serve refresh_measures w') = fst (serve refresh_measures w)
  ∧ same_store w (after POST_measures_refresh w')
  ∧ issued (after POST_measures_refresh w') = issued w.
Proof.
  intros w'.
  assert (Hs : same_store w w') by (by repeat split).
  assert (Ho : outages w' = outages w) by reflexivity.
  destruct (answers_frame w w' Hs Ho) as (H1 & H2 & H3).
  repeat split; done.
Qed.

(** ** The properties at sample worlds *)

(** ** The properties at sample worlds *)

Lemma get_patient_measures_failure_witness :
  ¬ answered partial_world (Select query_patient_bcs) [("patient_id", "p1")]
  ∧ fst (serve (get_patient_measures "p1") partial_world)
    = Error 500 "Internal server error".
Proof.
  assert (H : ¬ answered partial_world (Select query_patient_bcs) [("patient_id", "p1")]).
  { intros H. revert H. apply eq_None_not_Some. vm_compute. reflexivity. }
  split; [exact H|].
  apply (get_patient_measures_failure partial_world "p1").
  right; right; right. exact H.
Defined.


Lemma get_measure_details_unknown_witness :
  ("hedis-dm-a1c" ∉ catalog_ids)
  ∧ serve (get_measure_details "hedis-dm-a1c") diabetes_world
    = (Error 404 "Measure not found", diabetes_world).
Proof.
  assert (H : "hedis-dm-a1c" ∉ catalog_ids) by compute_done.
  split; [exact H|]. exact (get_measure_details_unknown diabetes_world _ H).
Defined.

Lemma get_measure_details_empty_refused_witness :
  relations empty_world !! a1c_relation = Some []
  ∧ fst (serve (get_measure_details "HEDIS-DM-A1C") empty_world)
    = Error 500 "Internal server error".
Proof.
  assert (H : relations empty_world !! a1c_relation = Some [])
    by (vm_compute; reflexivity).
  split; [exact H|].
  apply (get_measure_details_empty_refused empty_world a1c_id a1c_relation a1c_name).
  - compute_done.
  - reflexivity.
  - exact H.
Defined.

Lemma get_patient_measures_no_rows_witness :
  nul_free "p9" = true
  ∧ fst (serve (get_patient_measures "p9") surgical_world)
    = OK {| PatientMeasures.patient_id := "p9"; PatientMeasures.measures := [] |}.
Proof.
  apply (proj1 (proj2 (proj2 (proj2 (get_patient_measures_no_rows surgical_world "p9"))))).
  - reflexivity.
  - reflexivity.
  - apply not_eq_None_Some. vm_compute. discriminate.
  - apply not_eq_None_Some. vm_compute. discriminate.
  - intros relation rows t Hrel Hrows Ht.
    rewrite !elem_of_cons, elem_of_nil in Hrel.
    destruct Hrel as [->|[->|[]]]; vm_compute in Hrows; injection Hrows as <-;
      apply list_elem_of_singleton in Ht as ->; discriminate.
Defined.

Lemma statements_do_not_depend_on_input_witness :
  nul_free "p9" = nul_free "p1"
  ∧ render_sql ∘ fst <$> issued (after (GET_patient_measures "p9") surgical_world)
    = render_sql ∘ fst <$> issued (after (GET_patient_measures "p1") surgical_world).
Proof.
  assert (H : nul_free "p9" = nul_free "p1") by reflexivity.
  split; [exact H|].
  exact (proj1 (statements_do_not_depend_on_input surgical_world) "p9" "p1" H).
Defined.

Lemma get_patient_measures_two_relations_witness :
  let body := {| PatientMeasures.patient_id := "p9"; PatientMeasures.measures := [] |} in
  fst (serve (get_patient_measures "p9") surgical_world) = OK body
  ∧ (∀ rows,
       fst (serve (get_patient_measures "p9")
              (set_relations (<[psi_relation := rows]> (relations surgical_world))
                 surgical_world))
       = OK body).
Proof.
  intros body.
  assert (Hok : fst (serve (get_patient_measures "p9") surgical_world) = OK body)
    by (vm_compute; reflexivity).
  split; [exact Hok|].
  exact (proj2 (proj2 (proj2 (proj2
           (get_patient_measures_two_relations surgical_world "p9" body Hok))))).
Defined.

(** * Further properties of the handlers *)

(** ** [health_check] *)

(** ** [health_check] *)

Lemma health_check_run w :
  ∃ w',
    serve health_check w
    = (if up w 0
       then OK {| Health.status := "healthy"; Health.database := "connected" |}
       else Error 503 "Database connection failed", w')
    ∧ same_store w w'
    ∧ outages w' = tail (outages w)
    ∧ issued w' = issued w ++ (if up w 0 then [(SelectOne, [])] else [])
    ∧ length (logged w') = (length (logged w) + (if up w 0 then 0 else 1))%nat.
Proof.
  unfold serve, health_check, try_except, mbind at 1 2, M_bind at 1 2.
  destruct (connect_run w) as (w1 & -> & Hs & Ho & Hi & Hl).
  destruct (up w 0).
  - rewrite execute_run. cbn. eexists. split; [reflexivity|].
    cbn. rewrite Hi, Hl, Nat.add_0_r. by repeat split; try apply Hs.
  - cbn. eexists. split; [reflexivity|].
    cbn. rewrite Hi, Hl, app_nil_r, length_app. cbn. by repeat split; try apply Hs.
Qed.


(** ** [get_quality_measures], continued *)

(** X6.  [GET /measures] takes three connections, one for each measure,
    whether or not an earlier one failed, and writes one line to the log
    for each measure it leaves out: the measures returned and the lines
    logged are three together. *)
Theorem get_quality_measures_logs_omissions (w : world) measures :
  fst (serve get_quality_measures w) = OK measures →
  outages (after GET_measures w) = drop 3 (outages w)
  ∧ (length (logged (after GET_measures w)) + length measures
     = length (logged w) + 3)%nat.
Proof.
  destruct (get_quality_measures_run w) as (w' & E & _ & Ho & Hl).
  unfold after, serve. rewrite E. cbn [fst snd]. intros [= <-].
  split; [exact Ho|]. cbn [length]. lia.
Qed.

(** ** What the handlers do to the world *)

Section Steps.
Context (R : relation world) `{!PreOrder R}.
Hypothesis R_connect : ∀ w b rest, outages w = b :: rest → R w (set_outages rest w).
Hypothesis R_execute : ∀ w s, R w (add_issued s w).

Lemma steps_ret {A} (a : A) : steps R (mret a).
Proof. intros w. reflexivity. Qed.

Lemma steps_raise {A} e : steps R (@raise A e).
Proof. intros w. reflexivity. Qed.

Lemma steps_eval {A} (o : option A) error : steps R (eval o error).
Proof. destruct o; [apply steps_ret|apply steps_raise]. Qed.

Lemma steps_connect : steps R connect.
Proof.
  intros w. unfold connect. destruct (outages w) as [|[] rest] eqn:Ho; cbn;
    eauto using R_connect. reflexivity.
Qed.

Lemma steps_execute s params : steps R (execute s params).
Proof. intros w. rewrite execute_run. apply R_execute. Qed.

Lemma steps_logger_info line : (∀ w, R w (add_logged line w)) → steps R (logger_info line).
Proof. intros H w. apply H. Qed.

Lemma steps_logger_error line : (∀ w, R w (add_logged line w)) → steps R (logger_error line).
Proof. intros H w. apply H. Qed.

Lemma steps_bind {A B} (m : M A) (f : A → M B) :
  steps R m → (∀ a, steps R (f a)) → steps R (m ≫= f).
Proof.
  intros Hm Hf w. unfold mbind, M_bind. specialize (Hm w).
  destruct (m w) as [[e|a] w1]; cbn in *; [done|].
  etransitivity; [exact Hm|apply Hf].
Qed.

Lemma steps_try_except {A} (body : M A) (handler : exn → M A) :
  steps R body → (∀ e, steps R (handler e)) → steps R (try_except body handler).
Proof.
  intros Hm Hf w. unfold try_except. specialize (Hm w).
  destruct (body w) as [[e|a] w1]; cbn in *; [|done].
  etransitivity; [exact Hm|apply Hf].
Qed.
End Steps.

(** Discharges [steps R m] for a handler made of the primitives; [tac]
    proves that writing a line to the log is a step of [R], where the
    handler logs. *)
Ltac steps_of tac :=
  repeat first
    [ apply steps_ret | apply steps_raise | apply steps_eval
    | apply steps_connect | apply steps_execute
    | apply steps_logger_info; tac | apply steps_logger_error; tac
    | apply steps_bind | apply steps_try_except
    | progress intros | progress cbv zeta
    | match goal with |- steps _ (if ?b then _ else _) => destruct b end
    | match goal with |- steps _ (let '(_, _) := ?p in _) => destruct p end ].

#[local] Instance quiet_preorder : PreOrder quiet.
Proof. split; [done|]. unfold quiet. intros w1 w2 w3 H1 H2. by rewrite H2. Qed.

#[local] Instance grows_preorder : PreOrder grows.
Proof.
  split.
  - intros w. by repeat split.
  - intros w1 w2 w3 (S1 & O1 & I1 & L1) (S2 & O2 & I2 & L2).
    split; [by eapply same_store_trans|].
    split; [by etransitivity|]. split; by etransitivity.
Qed.

Lemma grows_connect w b rest : outages w = b :: rest → grows w (set_outages rest w).
Proof.
  intros Ho. repeat split; cbn; try done. rewrite Ho. by apply suffix_cons_r.
Qed.

Lemma grows_execute w s : grows w (add_issued s w).
Proof. repeat split; cbn; try done. by apply prefix_app_r. Qed.

Lemma grows_log line w : grows w (add_logged line w).
Proof. repeat split; cbn; try done. by apply prefix_app_r. Qed.

Lemma patient_block_quiet query pid info1 info2 measures :
  steps quiet (patient_block query pid info1 info2 measures).
Proof. unfold patient_block. steps_of ltac:(fail); first [apply _|by unfold quiet]. Qed.

(** X9.  No request writes to the store: after any request the relations,
    the collation and the date are what they were.  A request only takes
    connections, and appends to the statements executed and to the log. *)
Theorem requests_only_read (r : request) (w : world) : grows w (after r w).
Proof.
  unfold after. destruct r as [| | |measure_id| |pid]; rewrite serve_snd.
  - apply (steps_ret grows).
  - unfold health_check.
    steps_of ltac:(apply grows_log);
      first [apply _|eauto using grows_connect, grows_execute].
  - unfold get_quality_measures, measures_block.
    steps_of ltac:(apply grows_log);
      first [apply _|eauto using grows_connect, grows_execute].
  - unfold get_measure_details, resolve_measure.
    repeat match goal with |- context [String.eqb measure_id ?s] =>
      destruct (String.eqb measure_id s) end;
      steps_of ltac:(apply grows_log);
      first [apply _|eauto using grows_connect, grows_execute].
  - unfold refresh_measures.
    steps_of ltac:(apply grows_log);
      first [apply _|eauto using grows_connect, grows_execute].
  - unfold get_patient_measures, patient_block.
    steps_of ltac:(apply grows_log);
      first [apply _|eauto using grows_connect, grows_execute].
Qed.

Lemma get_measure_details_unknown_effects measure_id w :
  measure_id ∉ catalog_ids →
  serve (get_measure_details measure_id) w = (Error 404 "Measure not found", w).
Proof.
  intros Hid. unfold serve, get_measure_details, mbind, M_bind.
  by rewrite (resolve_measure_unknown _ _ Hid).
Qed.


(** ** [get_patient_measures], continued *)

(** ** [get_patient_measures], continued *)

Lemma get_patient_measures_effects pid w r w' :
  serve (get_patient_measures pid) w = (r, w') →
  outages w'
  = drop (match found_a1c w 0 pid with Some _ => 2 | None => 1 end) (outages w)
  ∧ length (logged w')
    = (length (logged w) + match r with OK _ => 0 | Error _ _ => 1 end)%nat.
Proof.
  unfold found_a1c, serve, get_patient_measures, try_except, mbind at 1 2, M_bind at 1 2.
  pose proof (patient_block_quiet query_patient_a1c pid
                "most_recent_a1c" "most_recent_a1c_date" [] w) as Q1.
  destruct (patient_block_run a1c_id a1c_name a1c_relation
              "most_recent_a1c" "most_recent_a1c_date" pid [] w)
    as (w1 & r1 & E1 & S1 & O1 & I1 & F1).
  fold query_patient_a1c in E1. rewrite E1 in Q1 |- *. cbn [snd] in Q1.
  destruct (found w 0 a1c_id _ _ _ _ pid) as [e1|].
  2:{ destruct F1 as [e ->]. cbn. intros [= <- <-]. cbn.
      rewrite length_app, Q1, O1. split; [|done]. by destruct (outages w). }
  subst r1.
  pose proof (patient_block_quiet query_patient_bcs pid
                "last_screening_date" "screening_count" ([] ++ option_list e1) w1) as Q2.
  destruct (patient_block_run bcs_id bcs_name bcs_relation
              "last_screening_date" "screening_count" pid ([] ++ option_list e1) w1)
    as (w2 & r2 & E2 & S2 & O2 & I2 & F2).
  fold query_patient_bcs in E2. rewrite E2 in Q2 |- *. cbn [snd] in Q2.
  assert (Ho : outages w2 = drop 2 (outages w)).
  { rewrite O2, O1. by destruct (outages w) as [|? [|? ?]]. }
  destruct (found w1 0 bcs_id _ _ _ _ pid) as [e2|].
  - subst r2. cbn. intros [= <- <-]. rewrite Q2, Q1. split; [done|lia].
  - destruct F2 as [e ->]. cbn. intros [= <- <-]. cbn.
    by rewrite length_app, Q2, Q1.
Qed.

(** X11.  [GET /patients/{id}/measures] stops at the first failure: the
    screening statement is executed only after the diabetes statement was
    answered, on a second connection, and when the first section fails only
    one connection is taken. *)
Theorem get_patient_measures_stops_at_failure (w : world) (pid : string) :
  let p := [("patient_id", pid)] in
  (∃ l, issued (after (GET_patient_measures pid) w) = issued w ++ l
        ∧ l `prefix_of` [(Select query_patient_a1c, p); (Select query_patient_bcs, p)]
        ∧ ((Select query_patient_bcs, p) ∈ l →
           up w 0 = true ∧ answered w (Select query_patient_a1c) p ∧ up w 1 = true))
  ∧ (up w 0 = false ∨ ¬ answered w (Select query_patient_a1c) p →
     outages (after (GET_patient_measures pid) w) = drop 1 (outages w))
  ∧ (up w 0 = true → answered w (Select query_patient_a1c) p →
     outages (after (GET_patient_measures pid) w) = drop 2 (outages w)).
Proof.
  intros p. unfold after.
  destruct (get_patient_measures_run pid w) as (w' & E & _ & Hi).
  destruct (get_patient_measures_effects pid w _ _ E) as [Ho _].
  rewrite E. cbn [snd].
  pose proof (found_is_Some w 0 a1c_id a1c_name a1c_relation
                "most_recent_a1c" "most_recent_a1c_date" pid) as Hf.
  fold (found_a1c w 0 pid) in Hf. fold query_patient_a1c in Hf. fold p in Hf.
  split; [|split].
  - exists (patient_statements w pid). split; [exact Hi|].
    unfold patient_statements. fold p.
    destruct (found_a1c w 0 pid) as [e1|].
    + destruct Hf as [[U A] _]; [done|]. rewrite U.
      destruct (up w 1); cbn; (split; [by eexists|]); [done|].
      intros H%list_elem_of_singleton. by inversion H.
    + destruct (up w 0); cbn; rewrite ?app_nil_r.
      * split; [by eexists|]. intros H%list_elem_of_singleton. by inversion H.
      * split; [apply prefix_nil|]. by intros H%elem_of_nil.
  - intros Hfail. rewrite Ho. destruct (found_a1c w 0 pid) as [e1|]; [|done].
    destruct Hf as [[U A] _]; [done|]. destruct Hfail; [congruence|done].
  - intros U A. rewrite Ho. destruct (found_a1c w 0 pid) as [e1|]; [done|].
    destruct Hf as [_ Hf]. destruct Hf as [? Hf]; [done|discriminate].
Qed.

Lemma found_Some_inv w k measure_id measure_name relation extra1 extra2 pid o :
  found w k measure_id measure_name relation extra1 extra2 pid = Some o →
  ∃ rows,
    relations w !! relation = Some rows
    ∧ has_columns
        (named_columns (patient_query measure_id measure_name relation extra1 extra2))
        rows = true
    ∧ o = entry_of_tuple measure_id measure_name extra1 extra2
            <$> head (filter (λ t, patient_id t = pid) rows).
Proof.
  unfold found. destruct (up w k); [|done].
  destruct (nul_free pid); [|done]. change (guard true;; ?x) with x.
  destruct (relations w !! relation) as [rows|]; [|done].
  cbn -[patient_query named_columns filter has_columns].
  destruct (has_columns _ rows) eqn:Hc; [|done].
  cbn -[patient_query named_columns filter].
  intros [= <-]. exists rows. split; [done|]. split; [done|]. do 2 f_equal.
  apply list_filter_iff. intros t. cbn. split; [by intros [= ->]|by intros ->].
Qed.

Lemma head_filter_Some {A} (P : A → Prop) `{!∀ x, Decision (P x)} (l : list A) x :
  head (filter P l) = Some x →
  ∃ l1 l2, l = l1 ++ x :: l2 ∧ P x ∧ ∀ y, y ∈ l1 → ¬ P y.
Proof.
  induction l as [|a l IH]; [done|].
  rewrite filter_cons. destruct (decide (P a)) as [Ha|Ha].
  - intros [= ->]. exists [], l. split; [done|]. split; [done|]. by intros y ?%elem_of_nil.
  - intros (l1 & l2 & -> & Hx & Hl1)%IH. exists (a :: l1), l2.
    split; [done|]. split; [done|]. intros y [->|Hy]%elem_of_cons; auto.
Qed.

Lemma head_filter_is_Some {A} (P : A → Prop) `{!∀ x, Decision (P x)} (l : list A) :
  is_Some (head (filter P l)) ↔ ∃ x, x ∈ l ∧ P x.
Proof.
  split.
  - intros [x (l1 & l2 & -> & Hx & _)%head_filter_Some]. exists x. split; [|done].
    apply elem_of_app. right. left.
  - intros (x & Hin & Hx).
    assert (Hf : x ∈ filter P l) by (by apply list_elem_of_filter).
    destruct (filter P l); [by apply elem_of_nil in Hf|by eexists].
Qed.

Lemma patient_response_OK_inv w pid body :
  fst (serve (get_patient_measures pid) w) = OK body →
  ∃ rows1 rows2,
    relations w !! a1c_relation = Some rows1
    ∧ relations w !! bcs_relation = Some rows2
    ∧ has_columns (named_columns query_patient_a1c) rows1 = true
    ∧ has_columns (named_columns query_patient_bcs) rows2 = true
    ∧ PatientMeasures.measures body
      = option_list (entry_of_tuple a1c_id a1c_name "most_recent_a1c" "most_recent_a1c_date"
                       <$> head (filter (λ t, patient_id t = pid) rows1))
        ++ option_list (entry_of_tuple bcs_id bcs_name "last_screening_date"
                          "screening_count"
                          <$> head (filter (λ t, patient_id t = pid) rows2)).
Proof.
  destruct (get_patient_measures_run pid w) as (w' & -> & _). cbn [fst].
  unfold patient_response.
  destruct (found_a1c w 0 pid) as [e1|] eqn:E1; [|done].
  destruct (found_bcs w 1 pid) as [e2|] eqn:E2; [|done].
  intros [= <-].
  apply found_Some_inv in E1 as (rows1 & R1 & C1 & ->).
  apply found_Some_inv in E2 as (rows2 & R2 & C2 & ->).
  by exists rows1, rows2.
Qed.

(** X12.  In a 200 answer of [GET /patients/{id}/measures] the diabetes
    measure comes before the screening measure, and a measure is listed
    exactly when its relation holds a row of the patient. *)
Theorem get_patient_measures_complete_in_order (w : world) (pid : string) body :
  fst (serve (get_patient_measures pid) w) = OK body →
  MeasureEntry.measure_id <$> PatientMeasures.measures body
    `sublist_of` [VStr "HEDIS-DM-A1C"; VStr "HEDIS-BCS"]
  ∧ ∀ measure_id relation measure_name,
      (measure_id, (relation, measure_name)) ∈ [a1c_entry; bcs_entry] →
      (VStr measure_id ∈ MeasureEntry.measure_id <$> PatientMeasures.measures body
       ↔ ∃ rows t, relations w !! relation = Some rows ∧ t ∈ rows ∧ patient_id t = pid).
Proof.
  intros (rows1 & rows2 & R1 & R2 & _ & _ & ->)%patient_response_OK_inv.
  pose proof (head_filter_is_Some (λ t, patient_id t = pid) rows1) as H1.
  pose proof (head_filter_is_Some (λ t, patient_id t = pid) rows2) as H2.
  rewrite fmap_app, !fmap_option_list, <- !option_fmap_compose.
  split.
  - destruct (head (filter _ rows1)), (head (filter _ rows2)); cbn;
      eauto 6 using sublist_nil, sublist_skip, sublist_cons.
  - intros id relation name [E|[E|[]%elem_of_nil]%elem_of_cons]%elem_of_cons;
      injection E as -> -> ->.
    + rewrite R1. split.
      * intros Hin. destruct H1 as [(t & ? & ?) _]; [|by eauto].
        destruct (head (filter _ rows1)); [by eexists|].
        exfalso. destruct (head (filter _ rows2)); revert Hin; compute_done.
      * intros (rows & t & [= <-] & Ht & Hp).
        destruct H1 as [_ [t1 ->]]; [by eauto|]. cbn. left.
    + rewrite R2. split.
      * intros Hin. destruct H2 as [(t & ? & ?) _]; [|by eauto].
        destruct (head (filter _ rows2)); [by eexists|].
        exfalso. destruct (head (filter _ rows1)); revert Hin; compute_done.
      * intros (rows & t & [= <-] & Ht & Hp).
        destruct H2 as [_ [t2 ->]]; [by eauto|].
        destruct (head (filter _ rows1)); cbn; [right|]; left.
Qed.

(** X13.  Every entry of a 200 answer of [GET /patients/{id}/measures]
    is taken from a row of the requested patient and of no other: the first
    row in its relation with that [patient_id].  Its name is the catalog's,
    its denominator and numerator are the row's, and each value of its
    [additional_info] is the row's column of that name. *)
Theorem get_patient_measures_own_first_row (w : world) (pid : string) body e :
  fst (serve (get_patient_measures pid) w) = OK body →
  e ∈ PatientMeasures.measures body →
  ∃ measure_id relation measure_name before t rest,
    (measure_id, (relation, measure_name)) ∈ [a1c_entry; bcs_entry]
    ∧ relations w !! relation = Some (before ++ t :: rest)
    ∧ patient_id t = pid
    ∧ (∀ t', t' ∈ before → patient_id t' ≠ pid)
    ∧ MeasureEntry.measure_id e = VStr measure_id
    ∧ MeasureEntry.measure_name e = VStr measure_name
    ∧ MeasureEntry.denominator e = VInt (denominator t)
    ∧ MeasureEntry.numerator e = VInt (numerator t)
    ∧ length (MeasureEntry.additional_info e) = 2%nat
    ∧ ∀ key v, (key, v) ∈ MeasureEntry.additional_info e → column key t = Some v.
Proof.
  intros (rows1 & rows2 & R1 & R2 & C1 & C2 & ->)%patient_response_OK_inv.
  assert (Hcol : ∀ cs rows t c, has_columns cs rows = true → t ∈ rows → c ∈ cs →
                 column c t = Some (default VNone (column c t))).
  { intros cs rows t c Hc Ht Hin.
    by destruct (has_columns_elem cs rows c t Hc Ht Hin) as [v ->]. }
  intros [He|He]%elem_of_app; apply elem_of_option_list in He;
    destruct (head (filter _ _)) as [t|] eqn:Hh; try done;
    injection He as <-;
    apply head_filter_Some in Hh as (l1 & l2 & -> & Hp & Hl1).
  - exists a1c_id, a1c_relation, a1c_name, l1, t, l2.
    split; [compute_done|]. repeat (split; [done|]).
    intros key v Hin. unfold entry_of_tuple in Hin.
    cbn [MeasureEntry.additional_info] in Hin.
    assert (Ht : t ∈ l1 ++ t :: l2) by (apply elem_of_app; right; left).
    apply elem_of_cons in Hin as [[= -> ->]|Hin];
      [|apply list_elem_of_singleton in Hin as [= -> ->]];
      apply (Hcol _ _ _ _ C1 Ht); compute_done.
  - exists bcs_id, bcs_relation, bcs_name, l1, t, l2.
    split; [compute_done|]. repeat (split; [done|]).
    intros key v Hin. unfold entry_of_tuple in Hin.
    cbn [MeasureEntry.additional_info] in Hin.
    assert (Ht : t ∈ l1 ++ t :: l2) by (apply elem_of_app; right; left).
    apply elem_of_cons in Hin as [[= -> ->]|Hin];
      [|apply list_elem_of_singleton in Hin as [= -> ->]];
      apply (Hcol _ _ _ _ C2 Ht); compute_done.
Qed.

(** ** All routes *)

(** X14.  Each route answers with one of its own status codes: 200 alone
    for [/], [/measures] and [/measures/refresh]; 200 or 503 for [/health];
    200, 404 or 500 for [/measures/{id}]; 200 or 500 for
    [/patients/{id}/measures]. *)
Theorem replies_in_statuses (r : request) (w : world) : reply r w ∈ statuses r.
Proof.
  destruct r as [| | |measure_id| |pid]; unfold reply, statuses.
  - cbn. left.
  - destruct (health_check_run w) as (w' & -> & _).
    destruct (up w 0); cbn; [left|right; left].
  - destruct (get_quality_measures_run w) as (w' & E & _).
    unfold serve. rewrite E. cbn. left.
  - destruct (decide (measure_id ∈ catalog_ids)) as [Hid|Hid].
    + unfold catalog_ids in Hid.
      apply list_elem_of_fmap in Hid as ([id [relation name]] & -> & Hin).
      rewrite (get_measure_details_run _ _ _ _ Hin). cbn. right; right; left.
    + rewrite (get_measure_details_not_found _ _ Hid). cbn. right. left.
  - cbn. left.
  - destruct (get_patient_measures_run pid w) as (w' & -> & _). cbn [fst].
    unfold patient_response.
    destruct (found_a1c w 0 pid), (found_bcs w 1 pid); cbn; [left|right; left..].
Qed.

(** X15.  Apart from [/measures], which swallows its failures, and
    [/measures/refresh], which always logs its request, a route writes to
    the log exactly when it answers 500 or 503, and then one line: a 404 is
    not logged. *)
Theorem failures_are_logged (r : request) (w : world) :
  r ≠ GET_measures →
  r ≠ POST_measures_refresh →
  length (logged (after r w))
  = (length (logged w) + if bool_decide (500 ≤ reply r w)%Z then 1 else 0)%nat.
Proof.
  intros H1 H2. destruct r as [| | |measure_id| |pid]; try done; unfold after, reply.
  - destruct (health_check_run w) as (w' & E & _ & _ & _ & Hl).
    rewrite E. cbn [fst snd]. rewrite Hl.
    destruct (up w 0); cbn; case_bool_decide; lia.
  - destruct (decide (measure_id ∈ catalog_ids)) as [Hid|Hid].
    + unfold catalog_ids in Hid.
      apply list_elem_of_fmap in Hid as ([id [relation name]] & -> & Hin).
      cbn [fst].
      destruct (get_measure_details_effects _ _ _ w Hin) as (w' & -> & _ & _ & _ & Hl).
      cbn [fst snd]. rewrite Hl. cbn. case_bool_decide; lia.
    + rewrite (get_measure_details_unknown_effects _ _ Hid). cbn. case_bool_decide; lia.
  - destruct (get_patient_measures_run pid w) as (w' & E & _).
    destruct (get_patient_measures_effects pid w _ _ E) as [_ Hl].
    rewrite E. cbn [fst snd]. rewrite Hl. unfold patient_response.
    destruct (found_a1c w 0 pid), (found_bcs w 1 pid); cbn; case_bool_decide; lia.
Qed.

(** ** The further properties at sample worlds *)

Lemma get_quality_measures_logs_omissions_witness :
  ∃ measures,
    fst (serve get_quality_measures flaky_world) = OK measures
    ∧ length measures = 0%nat
    ∧ length (logged (after GET_measures flaky_world)) = 3%nat
    ∧ outages (after GET_measures flaky_world) = [].
Proof.
  eexists. split; [vm_compute; reflexivity|]. split; [reflexivity|].
  destruct (get_quality_measures_logs_omissions flaky_world _ eq_refl) as [Ho Hl].
  split; [|exact Ho].
  remember (length (logged (after GET_measures flaky_world))) as n eqn:Hn.
  clear Hn. change (n + 0 = 0 + 3)%nat in Hl. lia.
Defined.


Lemma get_patient_measures_stops_at_failure_witness :
  outages (after (GET_patient_measures "p1") flaky_world) = [false].
Proof.
  refine (proj2 (proj2 (get_patient_measures_stops_at_failure flaky_world "p1")) _ _).
  - reflexivity.
  - apply not_eq_None_Some. vm_compute. discriminate.
Defined.

Lemma get_patient_measures_complete_in_order_witness :
  ∃ body,
    fst (serve (get_patient_measures "p1") full_world) = OK body
    ∧ MeasureEntry.measure_id <$> PatientMeasures.measures body
      = [VStr "HEDIS-DM-A1C"; VStr "HEDIS-BCS"]
    ∧ MeasureEntry.measure_id <$> PatientMeasures.measures body
        `sublist_of` [VStr "HEDIS-DM-A1C"; VStr "HEDIS-BCS"].
Proof.
  eexists. split; [vm_compute; reflexivity|]. split; [reflexivity|].
  refine (proj1 (get_patient_measures_complete_in_order full_world "p1" _ _)).
  vm_compute. reflexivity.
Defined.

Lemma get_patient_measures_own_first_row_witness :
  ∃ body e,
    fst (serve (get_patient_measures "p1") full_world) = OK body
    ∧ e ∈ PatientMeasures.measures body
    ∧ MeasureEntry.measure_id e = VStr "HEDIS-DM-A1C"
    ∧ MeasureEntry.numerator e = VInt 1
    ∧ ∃ t, MeasureEntry.numerator e = VInt (numerator t).
Proof.
  eexists _, _. split; [vm_compute; reflexivity|]. split; [left|].
  split; [reflexivity|]. split; [reflexivity|].
  destruct (get_patient_measures_own_first_row full_world "p1" _ _ eq_refl
              (list_elem_of_here _ _))
    as (id & relation & name & l1 & t & l2 & _ & _ & _ & _ & _ & _ & _ & Hn & _).
  exists t. exact Hn.
Defined.

Lemma failures_are_logged_witness :
  reply (GET_measure "HEDIS-BCS") partial_world = 500
  ∧ length (logged (after (GET_measure "HEDIS-BCS") partial_world)) = 1%nat.
Proof.
  split; [vm_compute; reflexivity|].
  rewrite (failures_are_logged (GET_measure "HEDIS-BCS") partial_world); [reflexivity|done..].
Defined.
